(** * tools/color_generator.py: a gradient between seed colours

    A shallow embedding of the script [tools/color_generator.py] and the
    properties of its colour conversion, of its two printing passes and of
    the strip of bands it paints.

    - Python [str] values are [string]s, one [ascii] per code point (code
      points below 256).
    - Python [float] is IEEE 754 binary64: the primitive [float] of Rocq,
      with the same rounding (to nearest, ties to even).
    - Python [int] is [Z].
    - A raised exception is the left summand of the result; the script has
      no [try], so an exception raised anywhere ends the run.
    - What the script does to the outside world (a line printed, a call
      into the imaging library) is an [event]; a run yields its events in
      the order they happen. *)

From Stdlib Require Import ZArith List Bool Ascii String Lia.
From Stdlib Require Import DecimalString.
From Stdlib Require Import Uint63 PrimFloat SpecFloat FloatOps.
Import ListNotations.

Open Scope string_scope.
Open Scope list_scope.
Open Scope Z_scope.

(** ** Exceptions *)

Inductive exn : Type :=
| ValueError (msg : string)
| IndexError (msg : string)
| OverflowError (msg : string)
| SystemError (msg : string).

Definition Exc (A : Type) : Type := (exn + A)%type.

(** ** Python built-ins used by the script *)

Module Py.

(** [s.lstrip(c)]: every leading occurrence of the character is dropped. *)
Fixpoint lstrip (c : ascii) (s : string) : string :=
  match s with
  | String a s' => if Ascii.eqb a c then lstrip c s' else s
  | EmptyString => s
  end.

Fixpoint drop (n : nat) (s : string) : string :=
  match n, s with
  | S n', String _ s' => drop n' s'
  | _, _ => s
  end.

Fixpoint take (n : nat) (s : string) : string :=
  match n, s with
  | S n', String a s' => String a (take n' s')
  | _, _ => EmptyString
  end.

(** [s[lo:hi]] for constant bounds [0 <= lo <= hi]: out-of-range bounds are
    clamped to the length, a slice never raises. *)
Definition slice (lo hi : nat) (s : string) : string :=
  take (hi - lo) (drop lo s).

(** Value of a digit in base 16, both cases of the letters. *)
Definition digit16 (c : ascii) : option Z :=
  let n := Z.of_N (N_of_ascii c) in
  if (48 <=? n) && (n <=? 57) then Some (n - 48)
  else if (97 <=? n) && (n <=? 102) then Some (n - 87)
  else if (65 <=? n) && (n <=? 70) then Some (n - 55)
  else None.

Definition is_hex (c : ascii) : bool :=
  match digit16 c with Some _ => true | None => false end.

(** White space that [int] skips around the number: the six of ASCII, and
    the two code points between 128 and 255 that Unicode counts as space. *)
Definition is_space (c : ascii) : bool :=
  let n := Z.of_N (N_of_ascii c) in
  ((9 <=? n) && (n <=? 13)) || (n =? 32) || (n =? 133) || (n =? 160).

Fixpoint skip_space (s : string) : string :=
  match s with
  | String a s' => if is_space a then skip_space s' else s
  | EmptyString => s
  end.

(** The digits of the number, most significant first, with the rule on
    underscores: one at a time, between digits only.  [acc] is the value so
    far, [prev_us] tells that the previous character was an underscore,
    [seen] that a digit has been read.  The result is the value and what
    follows the number. *)
Fixpoint digits16 (s : string) (acc : Z) (prev_us seen : bool)
  : option (Z * string) :=
  match s with
  | String a s' =>
      match digit16 a with
      | Some d => digits16 s' (16 * acc + d) false true
      | None =>
          if Ascii.eqb a "_"
          then if prev_us then None else digits16 s' acc true seen
          else if prev_us || negb seen then None else Some (acc, s)
      end
  | EmptyString => if prev_us || negb seen then None else Some (acc, s)
  end.

Definition code (c : ascii) : Z := Z.of_N (N_of_ascii c).

Definition backslash : ascii := ascii_of_nat 92.
Definition double_quote : ascii := ascii_of_nat 34.

Fixpoint contains (c : ascii) (s : string) : bool :=
  match s with
  | String a s' => Ascii.eqb a c || contains c s'
  | EmptyString => false
  end.

Definition hex_lower (d : Z) : ascii :=
  if d <? 10 then ascii_of_N (Z.to_N (48 + d)) else ascii_of_N (Z.to_N (87 + d)).

(** [str.isprintable] of one character below 256. *)
Definition printable (c : ascii) : bool :=
  let n := code c in
  ((32 <=? n) && (n <=? 126)) || ((161 <=? n) && negb (n =? 173)).

(** One character inside [repr(s)], for the quote that [repr] has chosen. *)
Definition repr_char (quote c : ascii) : string :=
  let n := code c in
  if Ascii.eqb c backslash then String backslash (String backslash "")
  else if Ascii.eqb c quote then String backslash (String quote "")
  else if n =? 9 then String backslash "t"
  else if n =? 10 then String backslash "n"
  else if n =? 13 then String backslash "r"
  else if printable c then String c ""
  else String backslash
         (String "x" (String (hex_lower (n / 16)) (String (hex_lower (n mod 16)) ""))).

Fixpoint repr_chars (quote : ascii) (s : string) : string :=
  match s with
  | String c s' => (repr_char quote c ++ repr_chars quote s')%string
  | EmptyString => EmptyString
  end.

(** [repr(s)]: in single quotes, or in double quotes when the string has a
    single quote and no double quote. *)
Definition repr (s : string) : string :=
  let quote :=
    if contains "'" s && negb (contains double_quote s) then double_quote
    else "'"%char in
  String quote (repr_chars quote s ++ String quote "").

Definition invalid_literal (s : string) : exn :=
  ValueError ("invalid literal for int() with base 16: " ++ repr s)%string.

(** [int(s, 16)]: white space, an optional sign, an optional [0x] or [0X]
    (after which one underscore may stand), the digits, white space. *)
Definition int16 (s : string) : Exc Z :=
  let s1 := skip_space s in
  let '(neg, s2) :=
    match s1 with
    | String "+" t => (false, t)
    | String "-" t => (true, t)
    | _ => (false, s1)
    end in
  let s3 :=
    match s2 with
    | String "0" (String "x" t) | String "0" (String "X" t) =>
        match t with String "_" t' => t' | _ => t end
    | _ => s2
    end in
  match s3 with
  | String "_" _ => inl (invalid_literal s)
  | _ =>
      match digits16 s3 0 false false with
      | Some (v, rest) =>
          match skip_space rest with
          | EmptyString => inr (if neg then - v else v)
          | _ => inl (invalid_literal s)
          end
      | None => inl (invalid_literal s)
      end
  end.

(** An [int] of the size the script meets, as a [float] (exact below 2^53). *)
Definition float_of_int (n : Z) : float :=
  match n with
  | Z0 => PrimFloat.zero
  | Zpos _ => PrimFloat.of_uint63 (Uint63.of_Z n)
  | Zneg p => PrimFloat.opp (PrimFloat.of_uint63 (Uint63.of_Z (Zpos p)))
  end.

(** [n / x] and [x * n] for an [int] n and a [float] x: the [int] is
    converted first. *)
Definition truediv_int_float (n : Z) (x : float) : float :=
  PrimFloat.div (float_of_int n) x.

Definition mul_float_int (x : float) (n : Z) : float :=
  PrimFloat.mul x (float_of_int n).

(** [int(x)] for a [float]: the fraction is cut off, towards zero. *)
Definition int_of_float (x : float) : Exc Z :=
  match Prim2SF x with
  | S754_zero _ => inr 0
  | S754_finite s m e =>
      let a :=
        match e with
        | Z0 => Zpos m
        | Zpos _ => Z.shiftl (Zpos m) e
        | Zneg p => Z.shiftr (Zpos m) (Zpos p)
        end in
      inr (if s then - a else a)
  | S754_infinity _ =>
      inl (OverflowError "cannot convert float infinity to integer")
  | S754_nan => inl (ValueError "cannot convert float NaN to integer")
  end.

(** A natural number in decimal, ["0"] for zero. *)
Definition decimal (n : Z) : string :=
  NilZero.string_of_uint (N.to_uint (Z.to_N n)).

Definition digit_char (d : Z) : ascii := ascii_of_N (Z.to_N (48 + d)).

(** The last [prec] decimal digits of [n], zeros included. *)
Fixpoint frac_digits (prec : nat) (n : Z) : string :=
  match prec with
  | O => EmptyString
  | S p => (frac_digits p (n / 10) ++ String (digit_char (n mod 10)) "")%string
  end.

(** [num / den] rounded to the nearest integer, a tie to the even one. *)
Definition round_half_even (num den : Z) : Z :=
  let q := num / den in
  let r := num mod den in
  if (den <? 2 * r) || ((2 * r =? den) && Z.odd q) then q + 1 else q.

(** [format(x, ".<prec>f")] with [prec > 0]: the exact value of the float,
    rounded to [prec] decimals (a tie to even), printed with all [prec]
    decimals. *)
Definition format_f (prec : nat) (x : float) : string :=
  let scale := 10 ^ Z.of_nat prec in
  let fixed (s : bool) (q : Z) : string :=
    ((if s then "-" else "") ++ decimal (q / scale) ++ "."
       ++ frac_digits prec (q mod scale))%string in
  match Prim2SF x with
  | S754_nan => "nan"
  | S754_infinity s => if s then "-inf" else "inf"
  | S754_zero s => fixed s 0
  | S754_finite s m e =>
      match e with
      | Zneg p => fixed s (round_half_even (Zpos m * scale) (2 ^ Zpos p))
      | _ => fixed s (Zpos m * 2 ^ e * scale)
      end
  end.

End Py.

(** ** Runs: exceptions and events *)

Definition rgb8 : Type := (Z * Z * Z)%type.
Definition point : Type := (Z * Z)%type.

(** What a run does to the outside: a line on standard output, or a call
    into the imaging library (Pillow), with the arguments of the call. *)
Inductive event : Type :=
| Print (line : string)
| ImageNew (mode : string) (size : Z * Z) (color : rgb8)
| ImageDrawDraw
| DrawRectangle (shape : point * point) (fill : rgb8)
| ImageSave (fp : string)
| ImageClose.

(** A computation: its result or the exception that ended it, and the
    events up to there. *)
Definition M (A : Type) : Type := (Exc A * list event)%type.

Definition ret {A} (a : A) : M A := (inr a, []).

Definition bind {A B} (m : M A) (k : A -> M B) : M B :=
  match m with
  | (inl e, evs) => (inl e, evs)
  | (inr a, evs) => let '(r, evs') := k a in (r, evs ++ evs')
  end.

Definition raise {A} (e : exn) : M A := (inl e, []).
Definition emit (ev : event) : M unit := (inr tt, [ev]).
Definition lift {A} (r : Exc A) : M A := (r, []).

Notation "x <- m ;; k" := (bind m (fun x => k))
  (at level 61, m at next level, right associativity).
Notation "' pat <- m ;; k" := (bind m (fun x => match x with pat => k end))
  (at level 61, pat pattern, m at next level, right associativity).
Notation "m ;; k" := (bind m (fun _ => k))
  (at level 61, right associativity).

(** [for x in l: body], with the variables the body assigns as [s]. *)
Fixpoint for_each {A S} (l : list A) (body : A -> S -> M S) (s : S) : M S :=
  match l with
  | [] => ret s
  | x :: l' => s' <- body x s ;; for_each l' body s'
  end.

(** [len(l)], [range(lo, hi)] and [l[i]] (a negative index counts from the
    end). *)
Definition len {A} (l : list A) : Z := Z.of_nat (List.length l).

Definition range (lo hi : Z) : list Z :=
  map (fun k => lo + Z.of_nat k) (seq 0 (Z.to_nat (hi - lo))).

Definition getitem {A} (l : list A) (i : Z) : Exc A :=
  let j := if i <? 0 then i + len l else i in
  match (if j <? 0 then None else nth_error l (Z.to_nat j)) with
  | Some x => inr x
  | None => inl (IndexError "list index out of range")
  end.

(** ** The libraries the script imports *)

(** The [colour] package: the class [Color], built from a hex string;
    [a.range_to(b, steps)], read into a list; the property [hex_l]. *)
Class Colour : Type := {
  Color : Type;
  Color_new : string -> Color;
  range_to : Color -> Color -> Z -> list Color;
  hex_l : Color -> string
}.

(** Pillow.  A call is an event.  Of what the library answers, two things
    are part of the model.  [Image.new] checks the size it is given and
    raises a [ValueError] when the width or the height is negative (the
    fault of a degenerate canvas height).  [image.save] raises when the
    image has no pixel, its width or its height being 0: the encoder is
    given an empty tile.  The directory is taken to be writable.  What the
    calls do to the picture and to the files is read off the events by
    [after], below. *)
Record Image : Type := {
  im_mode : string;
  im_size : Z * Z
}.

Definition Image_new (mode : string) (size : Z * Z) (color : rgb8) : M Image :=
  emit (ImageNew mode size color) ;;
  if (fst size <? 0) || (snd size <? 0)
  then raise (ValueError "Width and height must be >= 0")
  else ret {| im_mode := mode; im_size := size |}.

Definition ImageDraw_Draw (im : Image) : M unit := emit ImageDrawDraw.
Definition draw_rectangle (shape : point * point) (fill : rgb8) : M unit :=
  emit (DrawRectangle shape fill).

Definition no_pixel (size : Z * Z) : bool :=
  (fst size =? 0) || (snd size =? 0).

Definition image_save (im : Image) (fp : string) : M unit :=
  emit (ImageSave fp) ;;
  if no_pixel (im_size im)
  then raise (SystemError "tile cannot extend outside image")
  else ret tt.

Definition image_close (im : Image) : M unit := emit ImageClose.

(** ** The script *)

Definition rgba : Type := (float * float * float * float)%type.

(** [hex_to_rgba], lines 4 to 14. *)
Definition hex_to_rgba (hex_color : string) : Exc rgba :=
  let hex_color := Py.lstrip "#" hex_color in
  match Py.int16 (Py.slice 0 2 hex_color) with
  | inl e => inl e
  | inr r =>
      let r := Py.truediv_int_float r 255%float in
      match Py.int16 (Py.slice 2 4 hex_color) with
      | inl e => inl e
      | inr g =>
          let g := Py.truediv_int_float g 255%float in
          match Py.int16 (Py.slice 4 6 hex_color) with
          | inl e => inl e
          | inr b =>
              let b := Py.truediv_int_float b 255%float in
              inr (r, g, b, 1%float)
          end
      end
  end.

Definition STEPS : Z := 10.

Section Script.

Context {L : Colour}.

(** [write_image], lines 16 to 39. *)
Definition write_image (colors : list (list Color)) : M unit :=
  let STEP_SIZE := 10 in
  let width := 50 in
  let height := (len colors - 1) * STEPS * STEP_SIZE in
  image <- Image_new "RGB" (width, height) (255, 255, 255) ;;
  draw <- ImageDraw_Draw image ;;
  y <- for_each colors (fun sub_array y =>
         for_each sub_array (fun color y =>
           '(r, g, b, a) <- lift (hex_to_rgba (hex_l color)) ;;
           r <- lift (Py.int_of_float (Py.mul_float_int r 255)) ;;
           g <- lift (Py.int_of_float (Py.mul_float_int g 255)) ;;
           b <- lift (Py.int_of_float (Py.mul_float_int b 255)) ;;
           a <- lift (Py.int_of_float (Py.mul_float_int a 255)) ;;
           let shape := ((0, y), (width, y + STEP_SIZE - 2)) in
           draw_rectangle shape (r, g, b) ;;
           ret (y + STEP_SIZE)) y) 0 ;;
  image_save image "gradient.png" ;;
  image_close image.

(** The list [colors], lines 54 to 57. *)
Definition colors (initial_colors : list Color) : M (list (list Color)) :=
  for_each (range 0 (len initial_colors - 1)) (fun i colors =>
    a <- lift (getitem initial_colors i) ;;
    b <- lift (getitem initial_colors (i + 1)) ;;
    let result := range_to a b STEPS in
    ret (colors ++ [result])) [].

(** The two printing passes, lines 59 to 70. *)
Definition print_hex (colors : list (list Color)) : M Z :=
  for_each colors (fun sub_array i =>
    for_each sub_array (fun color i =>
      emit (Print (hex_l color)) ;;
      ret (i + 1)) i) 0.

Definition tuple_line (r g b : float) : string :=
  ("(" ++ Py.format_f 4 r ++ ", " ++ Py.format_f 4 g ++ ", "
       ++ Py.format_f 4 b ++ ")")%string.

Definition print_rgb (colors : list (list Color)) : M Z :=
  for_each colors (fun sub_array i =>
    for_each sub_array (fun color i =>
      '(r, g, b, a) <- lift (hex_to_rgba (hex_l color)) ;;
      emit (Print (tuple_line r g b)) ;;
      ret (i + 1)) i) 0.

(** The whole script, for a list of seed colours. *)
Definition script (initial_colors : list Color) : M unit :=
  colors <- colors initial_colors ;;
  print_hex colors ;;
  print_rgb colors ;;
  write_image colors.

(** The seed colours of the script, lines 44 to 51. *)
Definition initial_colors : list Color :=
  [ Color_new "#E6F800"; Color_new "#71E05A"; Color_new "#00BE84";
    Color_new "#009794"; Color_new "#006F83"; Color_new "#2F4858" ].

End Script.

(** ** What a hex colour denotes *)

Definition hex_value (c : ascii) : Z :=
  match Py.digit16 c with Some d => d | None => 0 end.

(** The byte that a pair of hex digits writes. *)
Definition pair16 (c1 c2 : ascii) : Z := 16 * hex_value c1 + hex_value c2.

(** A channel byte, normalised as [hex_to_rgba] does. *)
Definition unit_of (n : Z) : float := Py.truediv_int_float n 255%float.

(** The channel back as a byte, as [write_image] does: [int(v * 255)]. *)
Definition to_byte (v : float) : Exc Z :=
  Py.int_of_float (Py.mul_float_int v 255).

Definition hex6 (s : string) : bool :=
  match s with
  | String c1 (String c2 (String c3 (String c4 (String c5 (String c6 _))))) =>
      Py.is_hex c1 && Py.is_hex c2 && Py.is_hex c3
        && Py.is_hex c4 && Py.is_hex c5 && Py.is_hex c6
  | _ => false
  end.

(** Six hex digits, after one ["#"] or none; anything may follow them. *)
Definition hex_color (s : string) : bool :=
  match s with
  | String "#" t => hex6 t
  | _ => hex6 s
  end.

(** The three bytes that the six digits write. *)
Definition hex_bytes (s : string) : rgb8 :=
  match (match s with String "#" t => t | _ => s end) with
  | String c1 (String c2 (String c3 (String c4 (String c5 (String c6 _))))) =>
      (pair16 c1 c2, pair16 c3 c4, pair16 c5 c6)
  | _ => (0, 0, 0)
  end.

(** The six digits of a hex colour, as a string. *)
Definition six (c1 c2 c3 c4 c5 c6 : ascii) (tail : string) : string :=
  String c1 (String c2 (String c3 (String c4 (String c5 (String c6 tail))))).

Definition all_hex (c1 c2 c3 c4 c5 c6 : ascii) : bool :=
  forallb Py.is_hex [c1; c2; c3; c4; c5; c6].

Definition hash (p : bool) : string := if p then "#" else "".

Definition exc_is (r : Exc Z) (v : Z) : bool :=
  match r with inr x => x =? v | inl _ => false end.

Definition hex_chars : list ascii :=
  list_ascii_of_string "0123456789abcdefABCDEF".

Definition bytes : list Z := range 0 256.

(** ** Reading a run *)

Definition band : Type := (point * point * rgb8)%type.

(** The lines printed, the rectangles drawn and the paths saved to, each in
    the order of the run. *)
Definition printed (evs : list event) : list string :=
  flat_map (fun ev => match ev with Print line => [line] | _ => [] end) evs.

Definition rectangles (evs : list event) : list band :=
  flat_map (fun ev =>
    match ev with DrawRectangle shape fill => [(shape, fill)] | _ => [] end) evs.

Definition saved (evs : list event) : list string :=
  flat_map (fun ev => match ev with ImageSave fp => [fp] | _ => [] end) evs.








(** The rectangles that [write_image] is to draw for a list of stops, the
    first at offset [y]: one per stop, ten units apart, eight units high,
    from 0 to 50 across, filled with the bytes of the stop's hex string. *)
Fixpoint bands_from (y : Z) (hexes : list string) : list band :=
  match hexes with
  | [] => []
  | h :: hexes' => (((0, y), (50, y + 8)), hex_bytes h) :: bands_from (y + 10) hexes'
  end.

(** The second-pass line of a stop. *)
Definition rgb_line (h : string) : string :=
  let '(r, g, b) := hex_bytes h in
  (let f := Py.format_f 4 in
   "(" ++ f (unit_of r) ++ ", " ++ f (unit_of g) ++ ", " ++ f (unit_of b) ++ ")")%string.

Definition is_digit (c : ascii) : bool :=
  let n := Z.of_N (N_of_ascii c) in (48 <=? n) && (n <=? 57).

(** One digit, a point, four digits. *)
Definition fixed4 (s : string) : bool :=
  match s with
  | String d0 (String "." (String d1 (String d2 (String d3 (String d4 ""))))) =>
      is_digit d0 && is_digit d1 && is_digit d2 && is_digit d3 && is_digit d4
  | _ => false
  end.

Definition digit_value (c : ascii) : Z := Z.of_N (N_of_ascii c) - 48.

(** The number that a string of one digit, a point and four digits writes,
    in ten-thousandths. *)
Definition decimal4 (s : string) : option Z :=
  match s with
  | String d0 (String "." (String d1 (String d2 (String d3 (String d4 ""))))) =>
      if is_digit d0 && is_digit d1 && is_digit d2 && is_digit d3 && is_digit d4
      then Some (10000 * digit_value d0 + 1000 * digit_value d1
                 + 100 * digit_value d2 + 10 * digit_value d3 + digit_value d4)
      else None
  | _ => None
  end.

(** The string writes, to four decimals, the number nearest to
    [byte / 255]: [q / 10000] with [|q / 10000 - byte / 255| <= 1 / 20000]. *)
Definition shows (s : string) (byte : Z) : bool :=
  match decimal4 s with
  | Some q => 2 * Z.abs (255 * q - 10000 * byte) <=? 255
  | None => false
  end.

(** The events of a loop whose body emits [ev x s] and adds [d] to [s]. *)
Fixpoint emitted {A} (ev : A -> Z -> event) (d s : Z) (l : list A) : list event :=
  match l with
  | [] => []
  | x :: l' => ev x s :: emitted ev d (s + d) l'
  end.

Definition last_error {A} (l : list A) : option A :=
  nth_error l (List.length l - 1).

Section Segments.

Context {L : Colour}.

(** The segments that the loop of [colors] builds: one for each seed and
    the seed after it. *)
Fixpoint segments (seeds : list Color) : list (list Color) :=
  match seeds with
  | a :: (b :: _) as rest => range_to a b STEPS :: segments rest
  | _ => []
  end.

Definition stops_ok (stops : list Color) : bool :=
  forallb (fun c => hex_color (hex_l c)) stops.

End Segments.

Section Turns.

Context {L : Colour}.

(** One turn of the inner loop of [write_image], lines 29 to 35, and one of
    the second printing pass, lines 68 to 70. *)
Definition draw_stop (color : Color) (y : Z) : M Z :=
  '(r, g, b, a) <- lift (hex_to_rgba (hex_l color)) ;;
  r <- lift (Py.int_of_float (Py.mul_float_int r 255)) ;;
  g <- lift (Py.int_of_float (Py.mul_float_int g 255)) ;;
  b <- lift (Py.int_of_float (Py.mul_float_int b 255)) ;;
  a <- lift (Py.int_of_float (Py.mul_float_int a 255)) ;;
  draw_rectangle ((0, y), (50, y + 10 - 2)) (r, g, b) ;;
  ret (y + 10).

Definition print_stop (color : Color) (i : Z) : M Z :=
  '(r, g, b, a) <- lift (hex_to_rgba (hex_l color)) ;;
  emit (Print (tuple_line r g b)) ;;
  ret (i + 1).

End Turns.

(** A stand-in for the [colour] package, to run the script on: a colour is
    its three bytes, a range moves each channel in equal steps, [hex_l] is
    lower case.  It is not the package's own interpolation, and no theorem
    on the script depends on it: the theorems hold for any [Colour]. *)
Module Reference.

Definition hex_digit (d : Z) : ascii :=
  nth (Z.to_nat d) (list_ascii_of_string "0123456789abcdef") "0"%char.

Definition hex2 (n : Z) : string :=
  String (hex_digit (n / 16 mod 16)) (String (hex_digit (n mod 16)) "").

Definition hex (c : rgb8) : string :=
  let '(r, g, b) := c in ("#" ++ hex2 r ++ hex2 g ++ hex2 b)%string.

Definition step (a b k n : Z) : Z := a + (b - a) * k / (n - 1).

Definition between (a b : rgb8) (steps : Z) : list rgb8 :=
  let '(r1, g1, b1) := a in
  let '(r2, g2, b2) := b in
  map (fun k => (step r1 r2 k steps, step g1 g2 k steps, step b1 b2 k steps))
    (range 0 steps).

#[export] Instance colour : Colour := {
  Color := rgb8;
  Color_new := hex_bytes;
  range_to := between;
  hex_l := hex
}.

(** A second stand-in, for runs that go wrong: a colour is the very string
    that [hex_l] returns, hex colour or not, and a range is its two ends. *)
Definition raw : Colour := {|
  Color := string;
  Color_new := fun s => s;
  range_to := fun a b _ => [a; b];
  hex_l := fun s => s
|}.

(** Seeds and a world to run the script on. *)
Definition black : rgb8 := (0, 0, 0).
Definition white : rgb8 := (255, 255, 255).
Definition lime : rgb8 := (230, 248, 0).

End Reference.

(** ** Strings to try the conversion on *)

(** [n] times ["#"]. *)
Fixpoint hashes (n : nat) : string :=
  match n with
  | O => EmptyString
  | S n' => String "#" (hashes n')
  end.

(** The letters A to Z in lower case, every other character as it is. *)
Definition lower (c : ascii) : ascii :=
  let n := Z.of_N (N_of_ascii c) in
  if (65 <=? n) && (n <=? 90) then ascii_of_N (Z.to_N (n + 32)) else c.

Fixpoint lower_string (s : string) : string :=
  match s with
  | EmptyString => EmptyString
  | String c s' => String (lower c) (lower_string s')
  end.

(** Every character, by code point. *)
Definition all_ascii : list ascii := map ascii_of_nat (seq 0 256).

(** The values that [int16] can return for a slice of two characters. *)
Definition pair_values : list Z := range (-15) 256.

(** A result of [int16] that, if a value, lies between -15 and 255. *)
Definition in_pair_range (r : Exc Z) : bool :=
  match r with
  | inr v => (-15 <=? v) && (v <=? 255)
  | inl _ => true
  end.

(** ** Helper lemmas *)

Lemma in_range (lo hi n : Z) : lo <= n < hi -> In n (range lo hi).
Proof.
  intros H. unfold range. apply in_map_iff.
  exists (Z.to_nat (n - lo)). split; [lia|]. apply in_seq. lia.
Qed.

Lemma forall_bytes (P : Z -> bool) :
  forallb P bytes = true -> forall n, 0 <= n <= 255 -> P n = true.
Proof.
  intros H n Hn. rewrite forallb_forall in H. apply H.
  apply in_range. lia.
Qed.

Lemma is_hex_in (c : ascii) : Py.is_hex c = true -> In c hex_chars.
Proof.
  destruct c as [[] [] [] [] [] [] [] []]; vm_compute; intros H;
    try discriminate H; tauto.
Qed.

Lemma forall_hex (P : ascii -> bool) :
  forallb P hex_chars = true -> forall c, Py.is_hex c = true -> P c = true.
Proof.
  intros H c Hc. rewrite forallb_forall in H. apply H, is_hex_in, Hc.
Qed.

Lemma forall_hex2 (P : ascii -> ascii -> bool) :
  forallb (fun c1 => forallb (P c1) hex_chars) hex_chars = true ->
  forall c1 c2, Py.is_hex c1 = true -> Py.is_hex c2 = true -> P c1 c2 = true.
Proof.
  intros H c1 c2 H1 H2.
  apply (forall_hex (P c1)); [|exact H2].
  apply (forall_hex (fun c => forallb (P c) hex_chars)); [exact H|exact H1].
Qed.

Lemma hex_not_hash (c : ascii) : Py.is_hex c = true -> Ascii.eqb c "#" = false.
Proof.
  intros H. apply negb_true_iff.
  apply (forall_hex (fun c => negb (Ascii.eqb c "#"))); [reflexivity|exact H].
Qed.

Lemma exc_is_eq (r : Exc Z) (v : Z) : exc_is r v = true -> r = inr v.
Proof.
  destruct r as [e|x]; simpl; [discriminate|].
  intros H. apply Z.eqb_eq in H. now subst.
Qed.

Lemma int16_pair (c1 c2 : ascii) :
  Py.is_hex c1 = true -> Py.is_hex c2 = true ->
  Py.int16 (String c1 (String c2 "")) = inr (pair16 c1 c2).
Proof.
  intros H1 H2. apply exc_is_eq.
  apply (forall_hex2
           (fun a b => exc_is (Py.int16 (String a (String b ""))) (pair16 a b)));
    [vm_compute; reflexivity|exact H1|exact H2].
Qed.

Lemma pair16_byte (c1 c2 : ascii) :
  Py.is_hex c1 = true -> Py.is_hex c2 = true -> 0 <= pair16 c1 c2 <= 255.
Proof.
  intros H1 H2.
  assert (H : ((0 <=? pair16 c1 c2) && (pair16 c1 c2 <=? 255)) = true).
  { apply (forall_hex2
             (fun a b => (0 <=? pair16 a b) && (pair16 a b <=? 255)));
      [vm_compute; reflexivity|exact H1|exact H2]. }
  apply andb_true_iff in H. lia.
Qed.

(** The shape of a string that [hex_color] accepts. *)
Lemma hex_color_inv (s : string) :
  hex_color s = true ->
  exists (p : bool) c1 c2 c3 c4 c5 c6 tail,
    s = ((if p then "#" else "")
           ++ String c1 (String c2 (String c3 (String c4 (String c5
                (String c6 tail))))))%string
    /\ Py.is_hex c1 = true /\ Py.is_hex c2 = true /\ Py.is_hex c3 = true
    /\ Py.is_hex c4 = true /\ Py.is_hex c5 = true /\ Py.is_hex c6 = true.
Proof.
  assert (H6 : forall t, hex6 t = true ->
            exists c1 c2 c3 c4 c5 c6 tail,
              t = String c1 (String c2 (String c3 (String c4 (String c5
                    (String c6 tail)))))
              /\ Py.is_hex c1 = true /\ Py.is_hex c2 = true
              /\ Py.is_hex c3 = true /\ Py.is_hex c4 = true
              /\ Py.is_hex c5 = true /\ Py.is_hex c6 = true).
  { intros t Ht. unfold hex6 in Ht.
    destruct t as [|c1 [|c2 [|c3 [|c4 [|c5 [|c6 tail]]]]]];
      try discriminate Ht.
    repeat (apply andb_true_iff in Ht; destruct Ht as [Ht ?]).
    exists c1, c2, c3, c4, c5, c6, tail. repeat split; assumption. }
  intros H.
  destruct s as [|a t]; [discriminate H|].
  destruct (Ascii.eqb a "#") eqn:Ea.
  - apply Ascii.eqb_eq in Ea. subst a. simpl in H.
    destruct (H6 t H) as (c1 & c2 & c3 & c4 & c5 & c6 & tail & -> & Hh).
    exists true, c1, c2, c3, c4, c5, c6, tail. split; [reflexivity|exact Hh].
  - assert (H' : hex6 (String a t) = true).
    { revert H Ea. unfold hex_color.
      destruct a as [[] [] [] [] [] [] [] []]; try (intros H _; exact H).
      intros _ Ea. discriminate Ea. }
    destruct (H6 _ H') as (c1 & c2 & c3 & c4 & c5 & c6 & tail & E & Hh).
    exists false, c1, c2, c3, c4, c5, c6, tail. split; [exact E|exact Hh].
Qed.

Lemma hex_bytes_digits (p : bool) c1 c2 c3 c4 c5 c6 tail :
  Py.is_hex c1 = true ->
  hex_bytes ((if p then "#" else "")
               ++ String c1 (String c2 (String c3 (String c4 (String c5
                    (String c6 tail))))))%string
  = (pair16 c1 c2, pair16 c3 c4, pair16 c5 c6).
Proof.
  intros H1. destruct p; [reflexivity|].
  pose proof (hex_not_hash c1 H1) as Hn. simpl. unfold hex_bytes.
  destruct c1 as [[] [] [] [] [] [] [] []]; try reflexivity.
  discriminate Hn.
Qed.

(** [hex_to_rgba] on six hex digits, whatever follows them. *)
Lemma hex_to_rgba_digits (p : bool) c1 c2 c3 c4 c5 c6 tail :
  Py.is_hex c1 = true -> Py.is_hex c2 = true -> Py.is_hex c3 = true ->
  Py.is_hex c4 = true -> Py.is_hex c5 = true -> Py.is_hex c6 = true ->
  hex_to_rgba ((if p then "#" else "")
                 ++ String c1 (String c2 (String c3 (String c4 (String c5
                      (String c6 tail))))))%string
  = inr (unit_of (pair16 c1 c2), unit_of (pair16 c3 c4),
         unit_of (pair16 c5 c6), 1%float).
Proof.
  intros H1 H2 H3 H4 H5 H6. unfold hex_to_rgba.
  assert (E : Py.lstrip "#"
                ((if p then "#" else "")
                   ++ String c1 (String c2 (String c3 (String c4 (String c5
                        (String c6 tail))))))%string
              = String c1 (String c2 (String c3 (String c4 (String c5
                  (String c6 tail)))))).
  { destruct p; simpl; rewrite (hex_not_hash c1 H1); reflexivity. }
  rewrite E.
  change (Py.slice 0 2 (String c1 (String c2 (String c3 (String c4 (String c5
            (String c6 tail)))))))
    with (String c1 (String c2 "")).
  change (Py.slice 2 4 (String c1 (String c2 (String c3 (String c4 (String c5
            (String c6 tail)))))))
    with (String c3 (String c4 "")).
  change (Py.slice 4 6 (String c1 (String c2 (String c3 (String c4 (String c5
            (String c6 tail)))))))
    with (String c5 (String c6 "")).
  rewrite (int16_pair c1 c2 H1 H2), (int16_pair c3 c4 H3 H4),
    (int16_pair c5 c6 H5 H6).
  reflexivity.
Qed.

(** On a hex colour, [hex_to_rgba] returns the three bytes over 255, and
    alpha 1. *)
Lemma hex_to_rgba_bytes (s : string) :
  hex_color s = true ->
  exists r g b,
    hex_bytes s = (r, g, b)
    /\ 0 <= r <= 255 /\ 0 <= g <= 255 /\ 0 <= b <= 255
    /\ hex_to_rgba s = inr (unit_of r, unit_of g, unit_of b, 1%float).
Proof.
  intros H.
  destruct (hex_color_inv s H)
    as (p & c1 & c2 & c3 & c4 & c5 & c6 & tail & -> & H1 & H2 & H3 & H4 & H5 & H6).
  exists (pair16 c1 c2), (pair16 c3 c4), (pair16 c5 c6).
  split; [apply hex_bytes_digits; exact H1|].
  repeat split; try (apply pair16_byte; assumption).
  apply hex_to_rgba_digits; assumption.
Qed.

(** The round trip of a byte through the unit interval is exact. *)
Lemma to_byte_unit_of (n : Z) : 0 <= n <= 255 -> to_byte (unit_of n) = inr n.
Proof.
  intros H. apply exc_is_eq.
  apply (forall_bytes (fun n => exc_is (to_byte (unit_of n)) n));
    [vm_compute; reflexivity|exact H].
Qed.

Lemma unit_of_range (n : Z) :
  0 <= n <= 255 ->
  PrimFloat.leb 0 (unit_of n) = true /\ PrimFloat.leb (unit_of n) 1 = true.
Proof.
  intros H. apply andb_true_iff.
  apply (forall_bytes
           (fun n => PrimFloat.leb 0 (unit_of n) && PrimFloat.leb (unit_of n) 1));
    [vm_compute; reflexivity|exact H].
Qed.

(** ** Laws of runs and loops *)

Lemma bind_ret_l {A B} (a : A) (k : A -> M B) : bind (ret a) k = k a.
Proof. unfold bind, ret. destruct (k a). reflexivity. Qed.

Lemma bind_assoc {A B C} (m : M A) (f : A -> M B) (g : B -> M C) :
  bind (bind m f) g = bind m (fun a => bind (f a) g).
Proof.
  destruct m as [[e|a] evs]; [reflexivity|]. unfold bind.
  destruct (f a) as [[e|b] evs1]; [reflexivity|].
  destruct (g b) as [r evs2]. now rewrite app_assoc.
Qed.

Lemma bind_value {A B} (a : A) (evs : list event) (k : A -> M B) :
  bind (inr a, evs) k = (fst (k a), evs ++ snd (k a)).
Proof. unfold bind. destruct (k a). reflexivity. Qed.

Lemma for_each_app {A S} (l1 l2 : list A) (body : A -> S -> M S) (s : S) :
  for_each (l1 ++ l2) body s
  = bind (for_each l1 body s) (fun s' => for_each l2 body s').
Proof.
  revert s. induction l1 as [|x l1 IH]; intros s; cbn [for_each app].
  - now rewrite bind_ret_l.
  - rewrite bind_assoc. destruct (body x s) as [[e|s'] evs]; [reflexivity|].
    rewrite !bind_value. now rewrite IH.
Qed.

(** A loop inside a loop, on the same variables, is one loop over the
    concatenation. *)
Lemma for_each_concat {A S} (ll : list (list A)) (body : A -> S -> M S) (s : S) :
  for_each ll (fun l s => for_each l body s) s = for_each (List.concat ll) body s.
Proof.
  revert s. induction ll as [|l ll IH]; intros s; cbn [for_each List.concat];
    [reflexivity|].
  rewrite for_each_app. destruct (for_each l body s) as [[e|s'] evs];
    [reflexivity|]. rewrite !bind_value. now rewrite IH.
Qed.

(** A loop whose body emits one event and steps the variable. *)
Lemma for_each_emit {A} (l : list A) (body : A -> Z -> M Z)
      (ev : A -> Z -> event) (d : Z) (s : Z) :
  (forall x s, In x l -> body x s = (inr (s + d), [ev x s])) ->
  for_each l body s = (inr (s + d * len l), emitted ev d s l).
Proof.
  revert s. induction l as [|x l IH]; intros s Hb.
  - cbn. unfold ret, len. cbn. do 2 f_equal. lia.
  - cbn [for_each emitted]. rewrite (Hb x s (or_introl eq_refl)).
    rewrite bind_value, IH by (intros; apply Hb; now right).
    cbn [fst snd app]. do 2 f_equal. unfold len. cbn [List.length]. lia.
Qed.

Lemma emitted_const {A} (f : A -> event) (d s : Z) (l : list A) :
  emitted (fun x _ => f x) d s l = map f l.
Proof.
  revert s. induction l as [|x l IH]; intros s; cbn; [reflexivity|].
  now rewrite IH.
Qed.

Lemma emitted_bands {A} (h : A -> string) (y : Z) (l : list A) :
  emitted (fun x y => DrawRectangle ((0, y), (50, y + 10 - 2)) (hex_bytes (h x)))
    10 y l
  = map (fun '(shape, fill) => DrawRectangle shape fill)
      (bands_from y (map h l)).
Proof.
  revert y. induction l as [|x l IH]; intros y; cbn [emitted map bands_from];
    [reflexivity|].
  rewrite IH. replace (y + 10 - 2) with (y + 8) by lia. reflexivity.
Qed.

Lemma printed_app (e1 e2 : list event) :
  printed (e1 ++ e2) = printed e1 ++ printed e2.
Proof. apply flat_map_app. Qed.

Lemma rectangles_app (e1 e2 : list event) :
  rectangles (e1 ++ e2) = rectangles e1 ++ rectangles e2.
Proof. apply flat_map_app. Qed.

Lemma printed_prints {A} (f : A -> string) (l : list A) :
  printed (map (fun x => Print (f x)) l) = map f l.
Proof. induction l as [|x l IH]; cbn; [reflexivity|]. now f_equal. Qed.

Lemma rectangles_prints {A} (f : A -> string) (l : list A) :
  rectangles (map (fun x => Print (f x)) l) = [].
Proof. induction l as [|x l IH]; cbn; [reflexivity|]. exact IH. Qed.

Lemma printed_bands (bs : list band) :
  printed (map (fun '(shape, fill) => DrawRectangle shape fill) bs) = [].
Proof. induction bs as [|[sh f] bs IH]; cbn; [reflexivity|]. exact IH. Qed.

Lemma rectangles_bands (bs : list band) :
  rectangles (map (fun '(shape, fill) => DrawRectangle shape fill) bs) = bs.
Proof. induction bs as [|[sh f] bs IH]; cbn; [reflexivity|]. now f_equal. Qed.

Lemma bands_from_length (y : Z) (hexes : list string) :
  List.length (bands_from y hexes) = List.length hexes.
Proof.
  revert y. induction hexes as [|h hexes IH]; intros y; cbn; [reflexivity|].
  now rewrite IH.
Qed.

Lemma bands_from_nth (y : Z) (hexes : list string) (k : nat) (h : string) :
  nth_error hexes k = Some h ->
  nth_error (bands_from y hexes) k
  = Some (((0, y + 10 * Z.of_nat k), (50, y + 10 * Z.of_nat k + 8)), hex_bytes h).
Proof.
  revert y k. induction hexes as [|h0 hexes IH]; intros y k Hk.
  - destruct k; discriminate Hk.
  - destruct k as [|k].
    + cbn in Hk. injection Hk as ->. cbn. do 4 f_equal; lia.
    + cbn [nth_error] in Hk. cbn [bands_from nth_error].
      rewrite (IH (y + 10) k Hk). do 4 f_equal; lia.
Qed.

Lemma range_empty (lo hi : Z) : hi <= lo -> range lo hi = [].
Proof.
  intros H. unfold range. replace (Z.to_nat (hi - lo)) with O by lia.
  reflexivity.
Qed.

Lemma range_cons (lo hi : Z) : lo < hi -> range lo hi = lo :: range (lo + 1) hi.
Proof.
  intros H. unfold range.
  replace (Z.to_nat (hi - lo)) with (S (Z.to_nat (hi - (lo + 1)))) by lia.
  cbn [seq map]. f_equal; [lia|].
  rewrite <- seq_shift, map_map. apply map_ext. intros k. lia.
Qed.

Lemma len_app {A} (l1 l2 : list A) : len (l1 ++ l2) = len l1 + len l2.
Proof. unfold len. rewrite length_app. lia. Qed.

Lemma getitem_app {A} (pre : list A) (x : A) (rest : list A) :
  getitem (pre ++ x :: rest) (len pre) = inr x.
Proof.
  unfold getitem, len.
  assert (E : (Z.of_nat (List.length pre) <? 0) = false)
    by (apply Z.ltb_ge; lia).
  rewrite !E, Nat2Z.id, nth_error_app2, Nat.sub_diag by lia. reflexivity.
Qed.

Section ScriptRuns.

Context {L : Colour}.

(** The loop of lines 55 to 57 builds [segments], and raises nothing. *)
Lemma colors_loop (seeds pre l : list Color) (acc : list (list Color)) :
  l = pre ++ seeds ->
  for_each (range (len pre) (len l - 1)) (fun i colors =>
    a <- lift (getitem l i) ;;
    b <- lift (getitem l (i + 1)) ;;
    let result := range_to a b STEPS in
    ret (colors ++ [result])) acc
  = ret (acc ++ segments seeds).
Proof.
  revert pre acc. induction seeds as [|a seeds IH]; intros pre acc Hl.
  - rewrite range_empty by (subst l; rewrite app_nil_r; lia).
    cbn. now rewrite app_nil_r.
  - destruct seeds as [|b rest].
    + rewrite range_empty by (subst l; rewrite len_app; unfold len; cbn; lia).
      cbn. now rewrite app_nil_r.
    + assert (Hl' : l = (pre ++ [a]) ++ b :: rest)
        by (now rewrite <- app_assoc).
      pose proof (getitem_app pre a (b :: rest)) as Ga. rewrite <- Hl in Ga.
      pose proof (getitem_app (pre ++ [a]) b rest) as Gb.
      rewrite <- Hl', len_app in Gb. change (len [a]) with 1 in Gb.
      specialize (IH (pre ++ [a]) (acc ++ [range_to a b STEPS]) Hl').
      rewrite len_app in IH. change (len [a]) with 1 in IH.
      rewrite range_cons
        by (subst l; rewrite len_app; unfold len; cbn [List.length]; lia).
      cbn [for_each]. rewrite Ga, Gb.
      unfold lift in *. rewrite !bind_value. cbn [fst snd app ret].
      rewrite bind_value, IH.
      cbn [ret fst snd segments app]. now rewrite <- app_assoc.
Qed.

Lemma colors_segments (seeds : list Color) : colors seeds = ret (segments seeds).
Proof. exact (colors_loop seeds [] seeds [] eq_refl). Qed.

Lemma segments_length (seeds : list Color) :
  List.length (segments seeds) = (List.length seeds - 1)%nat.
Proof.
  induction seeds as [|a [|b rest] IH]; cbn [segments List.length] in *;
    try reflexivity.
  rewrite IH. lia.
Qed.

Lemma stops_ok_in (stops : list Color) (c : Color) :
  stops_ok stops = true -> In c stops -> hex_color (hex_l c) = true.
Proof.
  unfold stops_ok. rewrite forallb_forall. intros H Hc. exact (H c Hc).
Qed.

Lemma rgb_line_bytes (h : string) (r g b : Z) :
  hex_bytes h = (r, g, b) ->
  rgb_line h = tuple_line (unit_of r) (unit_of g) (unit_of b).
Proof. intros H. unfold rgb_line. rewrite H. reflexivity. Qed.

(** The first printing pass. *)
Lemma print_hex_run (cs : list (list Color)) :
  print_hex cs
  = (inr (len (List.concat cs)),
     map (fun c => Print (hex_l c)) (List.concat cs)).
Proof.
  unfold print_hex. rewrite for_each_concat.
  rewrite (for_each_emit _ _ (fun c _ => Print (hex_l c)) 1 0)
    by (intros; reflexivity).
  rewrite emitted_const. do 2 f_equal. lia.
Qed.

(** The second printing pass, on stops with a hex colour each. *)
Lemma print_rgb_run (cs : list (list Color)) :
  stops_ok (List.concat cs) = true ->
  print_rgb cs
  = (inr (len (List.concat cs)),
     map (fun c => Print (rgb_line (hex_l c))) (List.concat cs)).
Proof.
  intros Hok. unfold print_rgb. rewrite for_each_concat.
  rewrite (for_each_emit _ _ (fun c _ => Print (rgb_line (hex_l c))) 1 0).
  - rewrite emitted_const. do 2 f_equal. lia.
  - intros c s Hc.
    destruct (hex_to_rgba_bytes _ (stops_ok_in _ _ Hok Hc))
      as (r & g & b & Hb & _ & _ & _ & Hh).
    rewrite Hh, (rgb_line_bytes _ _ _ _ Hb). reflexivity.
Qed.

Lemma alpha_byte : to_byte 1%float = inr 255.
Proof. vm_compute. reflexivity. Qed.

(** One turn of the drawing loop, on a stop with a hex colour. *)
Lemma draw_turn (c : Color) (y : Z) :
  hex_color (hex_l c) = true ->
  ('(r, g, b, a) <- lift (hex_to_rgba (hex_l c)) ;;
   r <- lift (Py.int_of_float (Py.mul_float_int r 255)) ;;
   g <- lift (Py.int_of_float (Py.mul_float_int g 255)) ;;
   b <- lift (Py.int_of_float (Py.mul_float_int b 255)) ;;
   a <- lift (Py.int_of_float (Py.mul_float_int a 255)) ;;
   draw_rectangle ((0, y), (50, y + 10 - 2)) (r, g, b) ;;
   ret (y + 10))
  = (inr (y + 10),
     [DrawRectangle ((0, y), (50, y + 10 - 2)) (hex_bytes (hex_l c))]).
Proof.
  intros Hc.
  destruct (hex_to_rgba_bytes _ Hc) as (r & g & b & Hb & Hr & Hg & Hbl & Hh).
  rewrite Hh, Hb. unfold lift. rewrite bind_value.
  fold (to_byte (unit_of r)). fold (to_byte (unit_of g)).
  fold (to_byte (unit_of b)). fold (to_byte 1%float).
  rewrite (to_byte_unit_of r Hr), (to_byte_unit_of g Hg),
    (to_byte_unit_of b Hbl), alpha_byte.
  reflexivity.
Qed.

(** [write_image] on at least one segment, the stops with a hex colour
    each: the canvas, one rectangle per stop, the call to save; with one
    segment the canvas has no pixel and the save raises. *)
Lemma write_image_run_any (cs : list (list Color)) :
  cs <> [] ->
  stops_ok (List.concat cs) = true ->
  write_image cs
  = (if len cs =? 1
     then inl (SystemError "tile cannot extend outside image")
     else inr tt,
     ImageNew "RGB" (50, (len cs - 1) * 10 * 10) (255, 255, 255)
       :: ImageDrawDraw
       :: map (fun '(shape, fill) => DrawRectangle shape fill)
            (bands_from 0 (map hex_l (List.concat cs)))
       ++ ImageSave "gradient.png"
       :: (if len cs =? 1 then [] else [ImageClose])).
Proof.
  intros Hne Hok. unfold write_image.
  rewrite for_each_concat.
  rewrite (for_each_emit _ _
             (fun c y => DrawRectangle ((0, y), (50, y + 10 - 2))
                           (hex_bytes (hex_l c))) 10 0)
    by (intros c y Hc; apply draw_turn, (stops_ok_in _ _ Hok Hc)).
  rewrite (emitted_bands hex_l).
  unfold Image_new, image_save, no_pixel. cbn [fst snd im_size].
  assert (E : ((50 <? 0) || ((len cs - 1) * STEPS * 10 <? 0)) = false).
  { apply orb_false_iff. split; [reflexivity|]. apply Z.ltb_ge.
    unfold STEPS, len. destruct cs; [contradiction|]. cbn [List.length]. lia. }
  assert (E' : ((50 =? 0) || ((len cs - 1) * STEPS * 10 =? 0)) = (len cs =? 1)).
  { unfold STEPS. cbn [orb Z.eqb].
    destruct (Z.eqb_spec ((len cs - 1) * 10 * 10) 0),
      (Z.eqb_spec (len cs) 1); try reflexivity; lia. }
  rewrite E. unfold ImageDraw_Draw, image_close, emit, raise, ret.
  cbn [bind app fst snd im_size]. rewrite E'. unfold STEPS.
  destruct (len cs =? 1); reflexivity.
Qed.

(** [write_image] on two segments or more: it returns. *)
Lemma write_image_run (cs : list (list Color)) :
  (2 <= List.length cs)%nat ->
  stops_ok (List.concat cs) = true ->
  write_image cs
  = (inr tt,
     ImageNew "RGB" (50, (len cs - 1) * 10 * 10) (255, 255, 255)
       :: ImageDrawDraw
       :: map (fun '(shape, fill) => DrawRectangle shape fill)
            (bands_from 0 (map hex_l (List.concat cs)))
       ++ [ImageSave "gradient.png"; ImageClose]).
Proof.
  intros Hn Hok.
  assert (Hne : cs <> []) by (destruct cs; [cbn in Hn; lia|discriminate]).
  rewrite (write_image_run_any cs Hne Hok).
  assert (E : (len cs =? 1) = false) by (apply Z.eqb_neq; unfold len; lia).
  now rewrite E.
Qed.

(** [write_image] on no segment: the size is refused, nothing is drawn. *)
Lemma write_image_none :
  write_image []
  = (inl (ValueError "Width and height must be >= 0"),
     [ImageNew "RGB" (50, -100) (255, 255, 255)]).
Proof. reflexivity. Qed.

(** The whole run, for seeds whose stops have a hex colour each. *)
Lemma script_run (seeds : list Color) :
  stops_ok (List.concat (segments seeds)) = true ->
  script seeds
  = (fst (write_image (segments seeds)),
     map (fun c => Print (hex_l c)) (List.concat (segments seeds))
       ++ map (fun c => Print (rgb_line (hex_l c))) (List.concat (segments seeds))
       ++ snd (write_image (segments seeds))).
Proof.
  intros Hok. unfold script. rewrite colors_segments, bind_ret_l.
  rewrite print_hex_run, bind_value, (print_rgb_run _ Hok), bind_value.
  reflexivity.
Qed.

End ScriptRuns.

(** ** The built-ins and the conversion at work *)

Example int16_pair_ff : Py.int16 "ff" = inr 255.
Proof. reflexivity. Qed.

Example int16_sign : Py.int16 "-F" = inr (-15).
Proof. reflexivity. Qed.

Example int16_underscore : Py.int16 "1_0" = inr 16.
Proof. reflexivity. Qed.

Example int16_empty :
  Py.int16 "" = inl (ValueError "invalid literal for int() with base 16: ''").
Proof. reflexivity. Qed.

Example int16_newline :
  Py.int16 (String "g" (String (ascii_of_nat 10) ""))
  = inl (ValueError (String.append "invalid literal for int() with base 16: 'g"
                       (String Py.backslash "n'"))).
Proof. reflexivity. Qed.

Example repr_quote : Py.repr "it's" = String Py.double_quote
                                        (String.append "it's"
                                           (String Py.double_quote "")).
Proof. reflexivity. Qed.

Example lstrip_all : Py.lstrip "#" "##12#" = "12#".
Proof. reflexivity. Qed.

Example slice_clamped : Py.slice 2 4 "abc" = "c".
Proof. reflexivity. Qed.

Example format_third : Py.format_f 4 (PrimFloat.div 1 3) = "0.3333".
Proof. vm_compute. reflexivity. Qed.

Example format_tie_down : Py.format_f 4 0.03125%float = "0.0312".
Proof. vm_compute. reflexivity. Qed.

Example hex_to_rgba_white : hex_to_rgba "#ffffff" = inr (1, 1, 1, 1)%float.
Proof. vm_compute. reflexivity. Qed.

Example hex_to_rgba_short :
  hex_to_rgba "#12"
  = inl (ValueError "invalid literal for int() with base 16: ''").
Proof. vm_compute. reflexivity. Qed.

Example hex_to_rgba_not_hex :
  hex_to_rgba "#GG0000"
  = inl (ValueError "invalid literal for int() with base 16: 'GG'").
Proof. vm_compute. reflexivity. Qed.

(** ** The colour conversion *)

Lemma all_hex_each c1 c2 c3 c4 c5 c6 :
  all_hex c1 c2 c3 c4 c5 c6 = true ->
  Py.is_hex c1 = true /\ Py.is_hex c2 = true /\ Py.is_hex c3 = true
  /\ Py.is_hex c4 = true /\ Py.is_hex c5 = true /\ Py.is_hex c6 = true.
Proof.
  unfold all_hex. cbn [forallb]. intros H.
  repeat (apply andb_true_iff in H; destruct H as [? H]). tauto.
Qed.

(** C7.  For a string of six hex digits, with or without ["#"] in front,
    [hex_to_rgba] returns, for each pair of digits, the byte the pair writes
    divided by 255.0, a float between 0 and 1, and 1.0 for alpha. *)
Theorem hex_to_rgba_normalised (p : bool) (c1 c2 c3 c4 c5 c6 : ascii) :
  all_hex c1 c2 c3 c4 c5 c6 = true ->
  let r := PrimFloat.div (Py.float_of_int (pair16 c1 c2)) 255 in
  let g := PrimFloat.div (Py.float_of_int (pair16 c3 c4)) 255 in
  let b := PrimFloat.div (Py.float_of_int (pair16 c5 c6)) 255 in
  hex_to_rgba (hash p ++ six c1 c2 c3 c4 c5 c6 "") = inr (r, g, b, 1%float)
  /\ 0 <= pair16 c1 c2 <= 255 /\ 0 <= pair16 c3 c4 <= 255
  /\ 0 <= pair16 c5 c6 <= 255
  /\ PrimFloat.leb 0 r = true /\ PrimFloat.leb r 1 = true
  /\ PrimFloat.leb 0 g = true /\ PrimFloat.leb g 1 = true
  /\ PrimFloat.leb 0 b = true /\ PrimFloat.leb b 1 = true.
Proof.
  intros H. destruct (all_hex_each _ _ _ _ _ _ H) as (H1 & H2 & H3 & H4 & H5 & H6).
  intros r g b.
  pose proof (pair16_byte c1 c2 H1 H2) as Br.
  pose proof (pair16_byte c3 c4 H3 H4) as Bg.
  pose proof (pair16_byte c5 c6 H5 H6) as Bb.
  split; [exact (hex_to_rgba_digits p c1 c2 c3 c4 c5 c6 "" H1 H2 H3 H4 H5 H6)|].
  repeat (split; [assumption|]).
  destruct (unit_of_range _ Br), (unit_of_range _ Bg), (unit_of_range _ Bb).
  repeat split; assumption.
Qed.

Lemma hex_to_rgba_normalised_witness :
  hex_to_rgba "#E6F800"
  = inr (PrimFloat.div 230 255, PrimFloat.div 248 255, PrimFloat.div 0 255,
         1%float).
Proof.
  exact (proj1 (hex_to_rgba_normalised true "E" "6" "F" "8" "0" "0" eq_refl)).
Defined.

(** C10.  Of a string that begins with six hex digits, with or without
    ["#"] in front, [hex_to_rgba] reads the six digits and nothing after
    them: the result is that of the six digits alone, with alpha 1.0.  Two
    more digits for an alpha channel are characters after the six like any
    others. *)
Theorem hex_to_rgba_ignores_tail (p : bool) (c1 c2 c3 c4 c5 c6 : ascii)
        (tail : string) :
  all_hex c1 c2 c3 c4 c5 c6 = true ->
  hex_to_rgba (hash p ++ six c1 c2 c3 c4 c5 c6 tail)
  = hex_to_rgba (six c1 c2 c3 c4 c5 c6 "")
  /\ exists r g b,
       hex_to_rgba (hash p ++ six c1 c2 c3 c4 c5 c6 tail) = inr (r, g, b, 1%float).
Proof.
  intros H. destruct (all_hex_each _ _ _ _ _ _ H) as (H1 & H2 & H3 & H4 & H5 & H6).
  pose proof (hex_to_rgba_digits p c1 c2 c3 c4 c5 c6 tail H1 H2 H3 H4 H5 H6) as E.
  pose proof (hex_to_rgba_digits false c1 c2 c3 c4 c5 c6 "" H1 H2 H3 H4 H5 H6) as E0.
  split.
  - unfold hash, six in *. cbn [String.append] in E0. now rewrite E, E0.
  - eexists _, _, _. exact E.
Qed.

Lemma hex_to_rgba_ignores_tail_witness :
  hex_to_rgba "#E6F80080" = hex_to_rgba "E6F800".
Proof.
  exact (proj1 (hex_to_rgba_ignores_tail true "E" "6" "F" "8" "0" "0" "80"
                  eq_refl)).
Defined.

(** C4, as the script has it.  For a string that begins with six hex
    digits, with or without ["#"] in front, each channel that [hex_to_rgba]
    returns goes back through [int(v * 255)] to the very byte its two
    digits write: the cut of the fraction loses nothing, for any byte. *)
Theorem hex_round_trip (s : string) :
  hex_color s = true ->
  exists fr fg fb fa,
    hex_to_rgba s = inr (fr, fg, fb, fa)
    /\ (to_byte fr, to_byte fg, to_byte fb)
       = (let '(r, g, b) := hex_bytes s in (inr r, inr g, inr b)).
Proof.
  intros H.
  destruct (hex_to_rgba_bytes s H) as (r & g & b & Hb & Hr & Hg & Hbl & Hh).
  exists (unit_of r), (unit_of g), (unit_of b), 1%float.
  split; [exact Hh|]. rewrite Hb.
  now rewrite (to_byte_unit_of r Hr), (to_byte_unit_of g Hg),
    (to_byte_unit_of b Hbl).
Qed.

Lemma hex_round_trip_witness :
  exists fr fg fb fa,
    hex_to_rgba "#71E05A" = inr (fr, fg, fb, fa)
    /\ (to_byte fr, to_byte fg, to_byte fb) = (inr 113, inr 224, inr 90).
Proof. exact (hex_round_trip "#71E05A" eq_refl). Defined.

(** C4, as the specification has it: some byte would come back changed.
    None does. *)
Lemma no_byte_is_lost :
  ~ (exists n : Z, 0 <= n <= 255 /\ to_byte (unit_of n) <> inr n).
Proof. intros (n & Hn & Hne). exact (Hne (to_byte_unit_of n Hn)). Qed.

(** ** The image *)




Section Image.

Context {L : Colour}.

(** Whatever the segments, the first thing [write_image] does is to ask for
    a canvas 50 wide and a hundred units high per segment but one. *)
Lemma write_image_canvas (cs : list (list Color)) :
  hd_error (snd (write_image cs))
  = Some (ImageNew "RGB" (50, (len cs - 1) * STEPS * 10) (255, 255, 255)).
Proof.
  unfold write_image, Image_new. rewrite bind_assoc.
  unfold emit at 1. rewrite bind_value. reflexivity.
Qed.

(** The segments of [n] seeds are [n - 1], so that the canvas is a hundred
    units high per seed but two. *)
Lemma canvas_height (a : Color) (rest : list Color) :
  hd_error (snd (write_image (segments (a :: rest))))
  = Some (ImageNew "RGB" (50, (len (a :: rest) - 2) * 10 * 10) (255, 255, 255)).
Proof.
  rewrite write_image_canvas. do 3 f_equal.
  unfold len. rewrite segments_length. unfold STEPS.
  cbn [List.length]. lia.
Qed.

(** C1, at two seeds and at the six seeds of the script.  The loop of
    [colors] makes one segment of two seeds, and for one segment
    [write_image] asks for a canvas 50 wide and 0 high: not the 100 of
    (seed_count - 1) * 10 * 10.  For the six seeds it asks for 400, not
    500. *)
Theorem canvas_one_segment_short (a b : Color) :
  colors [a; b] = ret [range_to a b STEPS]
  /\ hd_error (snd (write_image [range_to a b STEPS]))
     = Some (ImageNew "RGB" (50, 0) (255, 255, 255))
  /\ hd_error (snd (write_image (segments initial_colors)))
     = Some (ImageNew "RGB" (50, 400) (255, 255, 255)).
Proof.
  split; [exact (colors_segments [a; b])|].
  split; [apply write_image_canvas|]. apply canvas_height.
Qed.

(** C3.  With no seed or one seed, the loop of [colors] makes no segment;
    the script prints nothing, [write_image] asks for a canvas 50 wide and
    -100 high, and the [ValueError] that answers ends the run: no rectangle
    is drawn and no file is saved. *)
Theorem no_segment_run (seeds : list Color) :
  (List.length seeds <= 1)%nat ->
  colors seeds = ret []
  /\ script seeds
     = (inl (ValueError "Width and height must be >= 0"),
        [ImageNew "RGB" (50, -100) (255, 255, 255)]).
Proof.
  intros H.
  assert (E : segments seeds = []).
  { destruct seeds as [|a [|b rest]]; try reflexivity. cbn in H. lia. }
  split.
  - now rewrite colors_segments, E.
  - rewrite script_run by (now rewrite E). rewrite E. reflexivity.
Qed.


End Image.

(** ** The stops: counted, printed, shared *)

Lemma fixed4_unit_of (n : Z) :
  0 <= n <= 255 -> fixed4 (Py.format_f 4 (unit_of n)) = true.
Proof.
  apply (forall_bytes (fun n => fixed4 (Py.format_f 4 (unit_of n)))).
  vm_compute. reflexivity.
Qed.

(** The four decimals printed for a byte over 255 are those of the nearest
    ten-thousandth. *)
Lemma shows_unit_of (n : Z) :
  0 <= n <= 255 -> shows (Py.format_f 4 (unit_of n)) n = true.
Proof.
  apply (forall_bytes (fun n => shows (Py.format_f 4 (unit_of n)) n)).
  vm_compute. reflexivity.
Qed.

Lemma nth_error_concat_uniform {A} (n : nat) (ll : list (list A)) (i k : nat)
      (l : list A) :
  Forall (fun l => List.length l = n) ll ->
  nth_error ll i = Some l -> (k < n)%nat ->
  nth_error (List.concat ll) (n * i + k) = nth_error l k.
Proof.
  intros Hall. revert i. induction Hall as [|l0 ll Hl0 Hall IH]; intros i Hi Hk.
  - destruct i; discriminate Hi.
  - destruct i as [|i]; cbn [List.concat nth_error] in *.
    + injection Hi as ->. rewrite Nat.mul_0_r, Nat.add_0_l.
      apply nth_error_app1. lia.
    + rewrite nth_error_app2 by lia.
      replace (n * S i + k - List.length l0)%nat with (n * i + k)%nat by lia.
      now apply IH.
Qed.

Lemma concat_uniform_length {A} (n : nat) (ll : list (list A)) :
  Forall (fun l => List.length l = n) ll ->
  List.length (List.concat ll) = (List.length ll * n)%nat.
Proof.
  induction 1 as [|l ll Hl Hall IH]; cbn [List.concat List.length];
    [reflexivity|].
  rewrite length_app, IH, Hl. lia.
Qed.

Lemma hd_error_nth {A} (l : list A) : hd_error l = nth_error l 0.
Proof. now destruct l. Qed.

Section Stops.

Context {L : Colour}.

Lemma segments_nth (seeds : list Color) (i : nat) (a b : Color) :
  nth_error seeds i = Some a -> nth_error seeds (S i) = Some b ->
  nth_error (segments seeds) i = Some (range_to a b STEPS).
Proof.
  revert i. induction seeds as [|x seeds IH]; intros i Ha Hb.
  - destruct i; discriminate Ha.
  - destruct seeds as [|y rest]; [destruct i; discriminate Hb|].
    destruct i as [|i].
    + cbn in Ha, Hb. injection Ha as ->. injection Hb as ->. reflexivity.
    + cbn [segments nth_error]. apply IH; assumption.
Qed.

Lemma segments_uniform (seeds : list Color) :
  (forall a b, List.length (range_to a b STEPS) = Z.to_nat STEPS) ->
  Forall (fun seg => List.length seg = Z.to_nat STEPS) (segments seeds).
Proof.
  intros Hlen. induction seeds as [|a [|b rest] IH]; cbn [segments];
    constructor; [apply Hlen|exact IH].
Qed.

Lemma printed_write_image (cs : list (list Color)) :
  stops_ok (List.concat cs) = true -> printed (snd (write_image cs)) = [].
Proof.
  intros Hok. destruct cs as [|seg cs]; [reflexivity|].
  rewrite write_image_run_any by (try discriminate; exact Hok).
  cbn [snd]. cbn [printed flat_map app].
  change (flat_map _ ?l) with (printed l).
  rewrite printed_app, printed_bands.
  destruct (len (seg :: cs) =? 1); reflexivity.
Qed.

Lemma rectangles_write_image (cs : list (list Color)) :
  stops_ok (List.concat cs) = true ->
  rectangles (snd (write_image cs)) = bands_from 0 (map hex_l (List.concat cs)).
Proof.
  intros Hok. destruct cs as [|seg cs]; [reflexivity|].
  rewrite write_image_run_any by (try discriminate; exact Hok).
  cbn [snd]. cbn [rectangles flat_map app].
  change (flat_map _ ?l) with (rectangles l).
  rewrite rectangles_app, rectangles_bands.
  destruct (len (seg :: cs) =? 1); cbn; now rewrite app_nil_r.
Qed.

(** C6.  When every range has [STEPS] colours and every stop a hex colour,
    [write_image] draws as many rectangles as the segments it is given have
    stops, and these are [STEPS] for each seed but one (none for no seed). *)
Theorem bands_count (seeds : list Color) :
  (forall a b, List.length (range_to a b STEPS) = Z.to_nat STEPS) ->
  stops_ok (List.concat (segments seeds)) = true ->
  exists cs,
    colors seeds = ret cs
    /\ List.length (rectangles (snd (write_image cs)))
       = List.length (List.concat cs)
    /\ List.length (List.concat cs)
       = ((List.length seeds - 1) * Z.to_nat STEPS)%nat.
Proof.
  intros Hlen Hok. exists (segments seeds).
  split; [apply colors_segments|]. split.
  - now rewrite (rectangles_write_image _ Hok), bands_from_length, length_map.
  - rewrite (concat_uniform_length _ _ (segments_uniform seeds Hlen)).
    now rewrite segments_length.
Qed.

(** C8.  When every stop has a hex colour, the lines that the script prints
    are the [hex_l] of every stop, in order, and then, for every stop in the
    same order, the line ["(r, g, b)"] of the channels that [hex_to_rgba]
    returns for it, each written as one digit, a point and four digits:
    the four-decimal number nearest to the byte of the channel over 255. *)
Theorem two_passes (seeds : list Color) :
  stops_ok (List.concat (segments seeds)) = true ->
  exists cs,
    colors seeds = ret cs
    /\ printed (snd (script seeds))
       = map hex_l (List.concat cs)
           ++ map (fun c => rgb_line (hex_l c)) (List.concat cs)
    /\ forall c, In c (List.concat cs) ->
         exists r g b a fr fg fb,
           hex_to_rgba (hex_l c) = inr (r, g, b, a)
           /\ fr = Py.format_f 4 r /\ fg = Py.format_f 4 g
           /\ fb = Py.format_f 4 b
           /\ rgb_line (hex_l c)
              = ("(" ++ fr ++ ", " ++ fg ++ ", " ++ fb ++ ")")%string
           /\ fixed4 fr = true /\ fixed4 fg = true /\ fixed4 fb = true
           /\ (let '(x, y, z) := hex_bytes (hex_l c) in
               shows fr x = true /\ shows fg y = true /\ shows fb z = true).
Proof.
  intros Hok. exists (segments seeds).
  split; [apply colors_segments|]. split.
  - rewrite (script_run _ Hok). cbn [snd].
    rewrite !printed_app, !printed_prints, (printed_write_image _ Hok).
    now rewrite app_nil_r.
  - intros c Hc.
    destruct (hex_to_rgba_bytes _ (stops_ok_in _ _ Hok Hc))
      as (r & g & b & Hb & Hr & Hg & Hbl & Hh).
    exists (unit_of r), (unit_of g), (unit_of b), 1%float.
    eexists _, _, _. split; [exact Hh|].
    split; [reflexivity|]. split; [reflexivity|]. split; [reflexivity|].
    split; [exact (rgb_line_bytes _ _ _ _ Hb)|].
    rewrite Hb.
    repeat split; first [apply fixed4_unit_of | apply shows_unit_of]; assumption.
Qed.

Lemma rectangles_script (seeds : list Color) :
  stops_ok (List.concat (segments seeds)) = true ->
  rectangles (snd (script seeds))
  = bands_from 0 (map hex_l (List.concat (segments seeds))).
Proof.
  intros Hok. rewrite (script_run _ Hok). cbn [snd].
  rewrite !rectangles_app, !rectangles_prints.
  exact (rectangles_write_image _ Hok).
Qed.

Lemma printed_script_nth (seeds : list Color) (p : nat) (c : Color) :
  stops_ok (List.concat (segments seeds)) = true ->
  nth_error (List.concat (segments seeds)) p = Some c ->
  nth_error (printed (snd (script seeds))) p = Some (hex_l c).
Proof.
  intros Hok Hp. rewrite (script_run _ Hok). cbn [snd].
  rewrite printed_app, printed_prints.
  rewrite nth_error_app1
    by (rewrite length_map; apply nth_error_Some; now rewrite Hp).
  now rewrite nth_error_map, Hp.
Qed.

Lemma rectangles_script_nth (seeds : list Color) (p : nat) (c : Color) :
  stops_ok (List.concat (segments seeds)) = true ->
  nth_error (List.concat (segments seeds)) p = Some c ->
  nth_error (rectangles (snd (script seeds))) p
  = Some (((0, 10 * Z.of_nat p), (50, 10 * Z.of_nat p + 8)), hex_bytes (hex_l c)).
Proof.
  intros Hok Hp. rewrite (rectangles_script _ Hok).
  now rewrite (bands_from_nth 0 _ p (hex_l c)) by (now rewrite nth_error_map, Hp).
Qed.

(** C9.  Let every range have [STEPS] colours, begin with the colour of its
    first end and end with the colour of its second (colours compared as
    [colour] compares them, by [hex_l]), and every stop have a hex colour.
    For a seed that is neither the first nor the last, the segment before it
    ends with its colour and the segment after it begins with its colour;
    the two stops are next to each other, at [10 * j - 1] and [10 * j], so
    its [hex_l] is printed on two lines running and two rectangles running
    are filled with its bytes. *)
Theorem shared_seed_twice (seeds : list Color) (j : nat) (s : Color) :
  (forall a b, List.length (range_to a b STEPS) = Z.to_nat STEPS) ->
  (forall a b, option_map hex_l (hd_error (range_to a b STEPS)) = Some (hex_l a)) ->
  (forall a b, option_map hex_l (last_error (range_to a b STEPS)) = Some (hex_l b)) ->
  stops_ok (List.concat (segments seeds)) = true ->
  (0 < j)%nat -> nth_error seeds j = Some s -> (S j < List.length seeds)%nat ->
  let evs := snd (script seeds) in
  let p := (10 * j - 1)%nat in
  exists seg1 seg2,
    nth_error (segments seeds) (j - 1) = Some seg1
    /\ nth_error (segments seeds) j = Some seg2
    /\ option_map hex_l (last_error seg1) = Some (hex_l s)
    /\ option_map hex_l (hd_error seg2) = Some (hex_l s)
    /\ nth_error (printed evs) p = Some (hex_l s)
    /\ nth_error (printed evs) (S p) = Some (hex_l s)
    /\ nth_error (rectangles evs) p
       = Some (((0, 10 * Z.of_nat p), (50, 10 * Z.of_nat p + 8)),
               hex_bytes (hex_l s))
    /\ nth_error (rectangles evs) (S p)
       = Some (((0, 10 * Z.of_nat (S p)), (50, 10 * Z.of_nat (S p) + 8)),
               hex_bytes (hex_l s)).
Proof.
  intros Hlen Hfirst Hlast Hok Hj Hs Hj' evs p.
  destruct (nth_error seeds (j - 1)) as [a|] eqn:Ha;
    [|apply nth_error_None in Ha; lia].
  destruct (nth_error seeds (S j)) as [b|] eqn:Hb;
    [|apply nth_error_None in Hb; lia].
  assert (H1 : nth_error (segments seeds) (j - 1) = Some (range_to a s STEPS)).
  { apply segments_nth; [exact Ha|].
    replace (S (j - 1)) with j by lia. exact Hs. }
  assert (H2 : nth_error (segments seeds) j = Some (range_to s b STEPS))
    by (apply segments_nth; assumption).
  pose proof (segments_uniform seeds Hlen) as Hall.
  change (Z.to_nat STEPS) with 10%nat in Hall.
  assert (P1 : nth_error (List.concat (segments seeds)) p
               = last_error (range_to a s STEPS)).
  { unfold last_error. rewrite Hlen. change (Z.to_nat STEPS - 1)%nat with 9%nat.
    replace p with (10 * (j - 1) + 9)%nat by lia.
    apply (nth_error_concat_uniform 10 _ _ _ _ Hall H1). lia. }
  assert (P2 : nth_error (List.concat (segments seeds)) (S p)
               = hd_error (range_to s b STEPS)).
  { rewrite hd_error_nth. replace (S p) with (10 * j + 0)%nat by lia.
    apply (nth_error_concat_uniform 10 _ _ _ _ Hall H2). lia. }
  specialize (Hlast a s). specialize (Hfirst s b).
  destruct (last_error (range_to a s STEPS)) as [c1|] eqn:E1;
    [|discriminate Hlast].
  destruct (hd_error (range_to s b STEPS)) as [c2|] eqn:E2;
    [|discriminate Hfirst].
  cbn [option_map] in Hlast, Hfirst.
  injection Hlast as Hc1. injection Hfirst as Hc2.
  exists (range_to a s STEPS), (range_to s b STEPS).
  rewrite E1, E2. cbn [option_map]. rewrite Hc1, Hc2.
  split; [exact H1|]. split; [exact H2|].
  split; [reflexivity|]. split; [reflexivity|].
  subst evs.
  rewrite (printed_script_nth _ _ _ Hok P1), (printed_script_nth _ _ _ Hok P2).
  rewrite (rectangles_script_nth _ _ _ Hok P1),
    (rectangles_script_nth _ _ _ Hok P2).
  rewrite Hc1, Hc2. repeat split; reflexivity.
Qed.

End Stops.

(** ** The script on the stand-in library *)

Module ReferenceRuns.

Import Reference.

Lemma between_length (a b : rgb8) :
  List.length (between a b STEPS) = Z.to_nat STEPS.
Proof. destruct a as [[r1 g1] b1], b as [[r2 g2] b2]. reflexivity. Qed.

Lemma step_first (a b : Z) : step a b 0 STEPS = a.
Proof. unfold step. rewrite Z.mul_0_r, Z.div_0_l by (unfold STEPS; lia). lia. Qed.

Lemma step_last (a b : Z) : step a b 9 STEPS = b.
Proof.
  unfold step. change (STEPS - 1) with 9. rewrite Z.div_mul by lia. lia.
Qed.

Lemma between_first (a b : rgb8) :
  option_map hex (hd_error (between a b STEPS)) = Some (hex a).
Proof.
  destruct a as [[r1 g1] b1], b as [[r2 g2] b2]. unfold between.
  change (range 0 STEPS) with [0; 1; 2; 3; 4; 5; 6; 7; 8; 9].
  cbn [map hd_error option_map]. now rewrite !step_first.
Qed.

Lemma between_last (a b : rgb8) :
  option_map hex (last_error (between a b STEPS)) = Some (hex b).
Proof.
  destruct a as [[r1 g1] b1], b as [[r2 g2] b2]. unfold between, last_error.
  change (range 0 STEPS) with [0; 1; 2; 3; 4; 5; 6; 7; 8; 9].
  cbn [map List.length Nat.sub nth_error option_map]. now rewrite !step_last.
Qed.

(** The whole run on black and white: one segment, so that the canvas is 0
    high and the save ends the run. *)
Example two_seed_run :
  script [black; white]
  = (inl (SystemError "tile cannot extend outside image"),
     [Print "#000000"; Print "#1c1c1c"; Print "#383838"; Print "#555555";
      Print "#717171"; Print "#8d8d8d"; Print "#aaaaaa"; Print "#c6c6c6";
      Print "#e2e2e2"; Print "#ffffff";
      Print "(0.0000, 0.0000, 0.0000)"; Print "(0.1098, 0.1098, 0.1098)";
      Print "(0.2196, 0.2196, 0.2196)"; Print "(0.3333, 0.3333, 0.3333)";
      Print "(0.4431, 0.4431, 0.4431)"; Print "(0.5529, 0.5529, 0.5529)";
      Print "(0.6667, 0.6667, 0.6667)"; Print "(0.7765, 0.7765, 0.7765)";
      Print "(0.8863, 0.8863, 0.8863)"; Print "(1.0000, 1.0000, 1.0000)";
      ImageNew "RGB" (50, 0) (255, 255, 255); ImageDrawDraw;
      DrawRectangle ((0, 0), (50, 8)) (0, 0, 0);
      DrawRectangle ((0, 10), (50, 18)) (28, 28, 28);
      DrawRectangle ((0, 20), (50, 28)) (56, 56, 56);
      DrawRectangle ((0, 30), (50, 38)) (85, 85, 85);
      DrawRectangle ((0, 40), (50, 48)) (113, 113, 113);
      DrawRectangle ((0, 50), (50, 58)) (141, 141, 141);
      DrawRectangle ((0, 60), (50, 68)) (170, 170, 170);
      DrawRectangle ((0, 70), (50, 78)) (198, 198, 198);
      DrawRectangle ((0, 80), (50, 88)) (226, 226, 226);
      DrawRectangle ((0, 90), (50, 98)) (255, 255, 255);
      ImageSave "gradient.png"]).
Proof. vm_compute. reflexivity. Qed.

End ReferenceRuns.

Lemma no_segment_run_witness :
  script (L := Reference.colour) [Reference.lime]
  = (inl (ValueError "Width and height must be >= 0"),
     [ImageNew "RGB" (50, -100) (255, 255, 255)]).
Proof.
  exact (proj2 (no_segment_run (L := Reference.colour) [Reference.lime]
                  (le_n 1))).
Defined.


Lemma bands_count_witness :
  exists cs,
    colors (L := Reference.colour) [Reference.black; Reference.white]
    = ret cs
    /\ List.length (rectangles (snd (write_image cs))) = List.length (List.concat cs)
    /\ List.length (List.concat cs) = 10%nat.
Proof.
  refine (bands_count (L := Reference.colour)
            [Reference.black; Reference.white]
            ReferenceRuns.between_length _).
  vm_compute. reflexivity.
Defined.

Lemma two_passes_witness :
  printed (snd (script (L := Reference.colour)
                  [Reference.black; Reference.white]))
  = ["#000000"; "#1c1c1c"; "#383838"; "#555555"; "#717171";
     "#8d8d8d"; "#aaaaaa"; "#c6c6c6"; "#e2e2e2"; "#ffffff";
     "(0.0000, 0.0000, 0.0000)"; "(0.1098, 0.1098, 0.1098)";
     "(0.2196, 0.2196, 0.2196)"; "(0.3333, 0.3333, 0.3333)";
     "(0.4431, 0.4431, 0.4431)"; "(0.5529, 0.5529, 0.5529)";
     "(0.6667, 0.6667, 0.6667)"; "(0.7765, 0.7765, 0.7765)";
     "(0.8863, 0.8863, 0.8863)"; "(1.0000, 1.0000, 1.0000)"].
Proof.
  destruct (two_passes (L := Reference.colour)
              [Reference.black; Reference.white])
    as (cs & H1 & H2 & _).
  - vm_compute. reflexivity.
  - vm_compute in H1. injection H1 as <-. rewrite H2.
    vm_compute. reflexivity.
Defined.

Lemma shared_seed_twice_witness :
  let evs := snd (script (L := Reference.colour)
                    [Reference.black; Reference.lime; Reference.white]) in
  nth_error (printed evs) 9 = Some "#e6f800"
  /\ nth_error (printed evs) 10 = Some "#e6f800".
Proof.
  destruct (shared_seed_twice (L := Reference.colour)
              [Reference.black; Reference.lime; Reference.white]
              1 Reference.lime
              ReferenceRuns.between_length ReferenceRuns.between_first
              ReferenceRuns.between_last)
    as (seg1 & seg2 & _ & _ & _ & _ & P1 & P2 & _).
  - vm_compute. reflexivity.
  - exact (le_n 1).
  - reflexivity.
  - exact (le_n 3).
  - split; [exact P1|exact P2].
Defined.

(** ** More on the conversion: what it accepts and what it refuses *)

Lemma lstrip_hashes (n : nat) (s : string) :
  Py.lstrip "#" (hashes n ++ s) = Py.lstrip "#" s.
Proof. induction n as [|n IH]; [reflexivity|exact IH]. Qed.

(** X1.  Any number of ["#"] in front of a string is dropped: the result is
    that of the string without them, value or exception. *)
Theorem hex_to_rgba_strips_hashes (n : nat) (s : string) :
  hex_to_rgba (hashes n ++ s) = hex_to_rgba s.
Proof. unfold hex_to_rgba. now rewrite lstrip_hashes. Qed.

Lemma int16_error (s : string) (e : exn) :
  Py.int16 s = inl e -> e = Py.invalid_literal s.
Proof.
  unfold Py.int16.
  destruct (match Py.skip_space s with
            | String "+" t => (false, t)
            | String "-" t => (true, t)
            | _ => (false, Py.skip_space s)
            end) as [neg s2].
  set (s3 := match s2 with
             | String "0" (String "x" t) | String "0" (String "X" t) =>
                 match t with String "_" t' => t' | _ => t end
             | _ => s2
             end).
  clearbody s3.
  destruct s3 as [|[[] [] [] [] [] [] [] []] t];
    repeat match goal with
      | |- context [match Py.digits16 ?a ?b ?c ?d with _ => _ end] =>
          destruct (Py.digits16 a b c d) as [[? ?]|]
      | |- context [match Py.skip_space ?r with _ => _ end] =>
          destruct (Py.skip_space r)
      end;
    intros H; inversion H; reflexivity.
Qed.

(** X2.  Whatever the string, [hex_to_rgba] raises nothing but a
    [ValueError]. *)
Theorem hex_to_rgba_raises_value_error (s : string) (e : exn) :
  hex_to_rgba s = inl e -> exists msg, e = ValueError msg.
Proof.
  unfold hex_to_rgba.
  destruct (Py.int16 (Py.slice 0 2 (Py.lstrip "#" s))) as [e1|r] eqn:E1.
  { intros H. injection H as <-. rewrite (int16_error _ _ E1). now eexists. }
  destruct (Py.int16 (Py.slice 2 4 (Py.lstrip "#" s))) as [e2|g] eqn:E2.
  { intros H. injection H as <-. rewrite (int16_error _ _ E2). now eexists. }
  destruct (Py.int16 (Py.slice 4 6 (Py.lstrip "#" s))) as [e3|b] eqn:E3.
  { intros H. injection H as <-. rewrite (int16_error _ _ E3). now eexists. }
  discriminate.
Qed.

Lemma hex_to_rgba_raises_value_error_witness :
  exists msg,
    ValueError "invalid literal for int() with base 16: 'GG'" = ValueError msg.
Proof.
  exact (hex_to_rgba_raises_value_error "#GG0000" _ eq_refl).
Defined.

Lemma slice_short (t : string) :
  (String.length t <= 4)%nat -> Py.slice 4 6 t = "".
Proof.
  destruct t as [|c1 [|c2 [|c3 [|c4 [|c5 t]]]]]; cbn; intros H;
    try reflexivity; lia.
Qed.

(** X3.  A string with four characters or fewer after its leading ["#"]s,
    like the short form ["#fff"], is refused with a [ValueError]: the slice
    for the blue channel is empty. *)
Theorem hex_to_rgba_short_refused (s : string) :
  (String.length (Py.lstrip "#" s) <= 4)%nat ->
  exists msg, hex_to_rgba s = inl (ValueError msg).
Proof.
  intros H. unfold hex_to_rgba. rewrite (slice_short _ H).
  destruct (Py.int16 (Py.slice 0 2 (Py.lstrip "#" s))) as [e1|r] eqn:E1.
  { rewrite (int16_error _ _ E1). now eexists. }
  destruct (Py.int16 (Py.slice 2 4 (Py.lstrip "#" s))) as [e2|g] eqn:E2.
  { rewrite (int16_error _ _ E2). now eexists. }
  now eexists.
Qed.

Lemma hex_to_rgba_short_refused_witness :
  exists msg, hex_to_rgba "#fff" = inl (ValueError msg).
Proof. apply hex_to_rgba_short_refused. vm_compute. lia. Defined.

Lemma int16_single (c : ascii) :
  Py.is_hex c = true -> Py.int16 (String c "") = inr (hex_value c).
Proof.
  intros H. apply exc_is_eq.
  apply (forall_hex (fun a => exc_is (Py.int16 (String a "")) (hex_value a)));
    [vm_compute; reflexivity|exact H].
Qed.

Lemma int16_minus (c : ascii) :
  Py.is_hex c = true -> Py.int16 (String "-" (String c "")) = inr (- hex_value c).
Proof.
  intros H. apply exc_is_eq.
  apply (forall_hex
           (fun a => exc_is (Py.int16 (String "-" (String a ""))) (- hex_value a)));
    [vm_compute; reflexivity|exact H].
Qed.

(** X4.  Five hex digits are accepted: the blue channel is read from the
    one digit that is left for it. *)
Theorem hex_to_rgba_five_digits (p : bool) (c1 c2 c3 c4 c5 : ascii) :
  forallb Py.is_hex [c1; c2; c3; c4; c5] = true ->
  hex_to_rgba (hash p ++ String c1 (String c2 (String c3 (String c4
                 (String c5 "")))))
  = inr (unit_of (pair16 c1 c2), unit_of (pair16 c3 c4),
         unit_of (hex_value c5), 1%float).
Proof.
  cbn [forallb]. intros H.
  repeat (apply andb_true_iff in H; destruct H as [? H]).
  unfold hex_to_rgba.
  assert (E : Py.lstrip "#"
                (hash p ++ String c1 (String c2 (String c3 (String c4
                   (String c5 "")))))
              = String c1 (String c2 (String c3 (String c4 (String c5 ""))))).
  { destruct p; cbn; rewrite (hex_not_hash c1); auto. }
  rewrite E.
  change (Py.slice 0 2 (String c1 (String c2 (String c3 (String c4
            (String c5 ""))))))
    with (String c1 (String c2 "")).
  change (Py.slice 2 4 (String c1 (String c2 (String c3 (String c4
            (String c5 ""))))))
    with (String c3 (String c4 "")).
  change (Py.slice 4 6 (String c1 (String c2 (String c3 (String c4
            (String c5 ""))))))
    with (String c5 "").
  rewrite !int16_pair, int16_single by assumption. reflexivity.
Qed.

Lemma hex_to_rgba_five_digits_witness :
  hex_to_rgba "#12345"
  = inr (unit_of 18, unit_of 52, unit_of 5, 1%float).
Proof. exact (hex_to_rgba_five_digits true "1" "2" "3" "4" "5" eq_refl). Defined.

(** X5.  A minus sign in the place of the first digit is accepted: the red
    channel is then the digit after it, negated, over 255.0. *)
Theorem hex_to_rgba_signed_pair (c2 c3 c4 c5 c6 : ascii) :
  forallb Py.is_hex [c2; c3; c4; c5; c6] = true ->
  hex_to_rgba (six "-" c2 c3 c4 c5 c6 "")
  = inr (unit_of (- hex_value c2), unit_of (pair16 c3 c4),
         unit_of (pair16 c5 c6), 1%float).
Proof.
  cbn [forallb]. intros H.
  repeat (apply andb_true_iff in H; destruct H as [? H]).
  unfold hex_to_rgba, six.
  change (Py.lstrip "#" (String "-" ?t)) with (String "-" t).
  change (Py.slice 0 2 (String "-" (String c2 (String c3 (String c4
            (String c5 (String c6 "")))))))
    with (String "-" (String c2 "")).
  change (Py.slice 2 4 (String "-" (String c2 (String c3 (String c4
            (String c5 (String c6 "")))))))
    with (String c3 (String c4 "")).
  change (Py.slice 4 6 (String "-" (String c2 (String c3 (String c4
            (String c5 (String c6 "")))))))
    with (String c5 (String c6 "")).
  rewrite int16_minus, !int16_pair by assumption. reflexivity.
Qed.

Lemma hex_to_rgba_signed_pair_witness :
  hex_to_rgba "-f0000" = inr (unit_of (-15), unit_of 0, unit_of 0, 1%float).
Proof. exact (hex_to_rgba_signed_pair "f" "0" "0" "0" "0" eq_refl). Defined.

Lemma lower_hex (c : ascii) :
  Py.is_hex c = true ->
  Py.is_hex (lower c) = true /\ hex_value (lower c) = hex_value c.
Proof.
  intros H.
  assert (E : Py.is_hex (lower c) && (hex_value (lower c) =? hex_value c) = true).
  { apply (forall_hex (fun a => Py.is_hex (lower a)
                                && (hex_value (lower a) =? hex_value a)));
      [vm_compute; reflexivity|exact H]. }
  apply andb_true_iff in E. destruct E as [E1 E2].
  apply Z.eqb_eq in E2. now split.
Qed.

(** X6.  The case of the letters does not count: a hex colour in lower case
    converts to what the colour converts to as it is written. *)
Theorem hex_to_rgba_case (s : string) :
  hex_color s = true -> hex_to_rgba (lower_string s) = hex_to_rgba s.
Proof.
  intros H.
  destruct (hex_color_inv s H)
    as (p & c1 & c2 & c3 & c4 & c5 & c6 & tail & -> & H1 & H2 & H3 & H4 & H5 & H6).
  destruct (lower_hex c1 H1) as [L1 V1], (lower_hex c2 H2) as [L2 V2],
    (lower_hex c3 H3) as [L3 V3], (lower_hex c4 H4) as [L4 V4],
    (lower_hex c5 H5) as [L5 V5], (lower_hex c6 H6) as [L6 V6].
  assert (E : lower_string
                ((if p then "#" else "")
                   ++ String c1 (String c2 (String c3 (String c4 (String c5
                        (String c6 tail))))))
              = ((if p then "#" else "")
                   ++ String (lower c1) (String (lower c2) (String (lower c3)
                        (String (lower c4) (String (lower c5)
                           (String (lower c6) (lower_string tail)))))))%string).
  { destruct p; reflexivity. }
  rewrite E.
  rewrite (hex_to_rgba_digits p _ _ _ _ _ _ _ L1 L2 L3 L4 L5 L6).
  rewrite (hex_to_rgba_digits p _ _ _ _ _ _ _ H1 H2 H3 H4 H5 H6).
  unfold pair16. now rewrite V1, V2, V3, V4, V5, V6.
Qed.

Lemma hex_to_rgba_case_witness :
  hex_to_rgba "#e6f800" = hex_to_rgba "#E6F800".
Proof. exact (hex_to_rgba_case "#E6F800" eq_refl). Defined.

Lemma hex_bytes_range (s : string) (r g b : Z) :
  hex_color s = true -> hex_bytes s = (r, g, b) ->
  0 <= r <= 255 /\ 0 <= g <= 255 /\ 0 <= b <= 255.
Proof.
  intros H E.
  destruct (hex_to_rgba_bytes s H) as (r' & g' & b' & Hb & Hr & Hg & Hbl & _).
  rewrite E in Hb. injection Hb as -> -> ->. tauto.
Qed.

Lemma unit_of_inj (n m : Z) :
  0 <= n <= 255 -> 0 <= m <= 255 -> unit_of n = unit_of m -> n = m.
Proof.
  intros Hn Hm E.
  pose proof (to_byte_unit_of n Hn) as Tn. rewrite E, (to_byte_unit_of m Hm) in Tn.
  now injection Tn.
Qed.

(** X7.  Two hex colours that [hex_to_rgba] converts to the same value write
    the same three bytes: no two colours fall together. *)
Theorem hex_to_rgba_injective (s1 s2 : string) :
  hex_color s1 = true -> hex_color s2 = true ->
  hex_to_rgba s1 = hex_to_rgba s2 -> hex_bytes s1 = hex_bytes s2.
Proof.
  intros H1 H2 E.
  destruct (hex_to_rgba_bytes s1 H1) as (r1 & g1 & b1 & B1 & Hr1 & Hg1 & Hb1 & E1).
  destruct (hex_to_rgba_bytes s2 H2) as (r2 & g2 & b2 & B2 & Hr2 & Hg2 & Hb2 & E2).
  rewrite E1, E2 in E. injection E as Er Eg Eb.
  rewrite B1, B2.
  now rewrite (unit_of_inj _ _ Hr1 Hr2 Er), (unit_of_inj _ _ Hg1 Hg2 Eg),
    (unit_of_inj _ _ Hb1 Hb2 Eb).
Qed.

Lemma hex_to_rgba_injective_witness :
  hex_bytes "#e6f800ff" = hex_bytes "E6F800".
Proof.
  apply hex_to_rgba_injective; vm_compute; reflexivity.
Defined.

Lemma unit_of_order (n m : Z) :
  0 <= n <= 255 -> 0 <= m <= 255 ->
  PrimFloat.ltb (unit_of n) (unit_of m) = (n <? m).
Proof.
  intros Hn Hm.
  assert (E : Bool.eqb (PrimFloat.ltb (unit_of n) (unit_of m)) (n <? m) = true).
  { apply (forall_bytes
             (fun m => Bool.eqb (PrimFloat.ltb (unit_of n) (unit_of m)) (n <? m)));
      [|exact Hm].
    apply (forall_bytes
             (fun n => forallb
                (fun m => Bool.eqb (PrimFloat.ltb (unit_of n) (unit_of m)) (n <? m))
                bytes));
      [vm_compute; reflexivity|exact Hn]. }
  now apply Bool.eqb_prop in E.
Qed.

(** X8.  The conversion keeps the order of every channel: of two hex
    colours, the red of the first is below the red of the second as floats
    exactly when it is as bytes, and so for green and blue. *)
Theorem hex_to_rgba_order (s1 s2 : string) :
  hex_color s1 = true -> hex_color s2 = true ->
  exists r1 g1 b1 r2 g2 b2,
    hex_to_rgba s1 = inr (r1, g1, b1, 1%float)
    /\ hex_to_rgba s2 = inr (r2, g2, b2, 1%float)
    /\ (let '(x1, y1, z1) := hex_bytes s1 in
        let '(x2, y2, z2) := hex_bytes s2 in
        PrimFloat.ltb r1 r2 = (x1 <? x2)
        /\ PrimFloat.ltb g1 g2 = (y1 <? y2)
        /\ PrimFloat.ltb b1 b2 = (z1 <? z2)).
Proof.
  intros H1 H2.
  destruct (hex_to_rgba_bytes s1 H1) as (r1 & g1 & b1 & B1 & Hr1 & Hg1 & Hb1 & E1).
  destruct (hex_to_rgba_bytes s2 H2) as (r2 & g2 & b2 & B2 & Hr2 & Hg2 & Hb2 & E2).
  exists (unit_of r1), (unit_of g1), (unit_of b1),
    (unit_of r2), (unit_of g2), (unit_of b2).
  split; [exact E1|]. split; [exact E2|]. rewrite B1, B2.
  repeat split; apply unit_of_order; assumption.
Qed.

Lemma hex_to_rgba_order_witness :
  exists r1 g1 b1 r2 g2 b2,
    hex_to_rgba "#71E05A" = inr (r1, g1, b1, 1%float)
    /\ hex_to_rgba "#E6F800" = inr (r2, g2, b2, 1%float)
    /\ PrimFloat.ltb r1 r2 = true
    /\ PrimFloat.ltb g1 g2 = true
    /\ PrimFloat.ltb b1 b2 = false.
Proof. exact (hex_to_rgba_order "#71E05A" "#E6F800" eq_refl eq_refl). Defined.

Lemma in_all_ascii (c : ascii) : In c all_ascii.
Proof.
  unfold all_ascii. apply in_map_iff. exists (nat_of_ascii c).
  split; [apply ascii_nat_embedding|].
  apply in_seq. pose proof (nat_ascii_bounded c). lia.
Qed.

Lemma forall_ascii (P : ascii -> bool) :
  forallb P all_ascii = true -> forall c, P c = true.
Proof.
  intros H c. rewrite forallb_forall in H. apply H, in_all_ascii.
Qed.

Lemma take_two (t : string) :
  Py.take 2 t = ""
  \/ (exists a, Py.take 2 t = String a "")
  \/ (exists a b, Py.take 2 t = String a (String b "")).
Proof.
  destruct t as [|a [|b t]]; cbn; eauto.
Qed.

(** Whatever two characters or fewer [int16] is given, a value it returns
    lies between -15 and 255. *)
Lemma int16_two_range (t : string) (v : Z) :
  Py.int16 (Py.take 2 t) = inr v -> -15 <= v <= 255.
Proof.
  assert (R : in_pair_range (Py.int16 (Py.take 2 t)) = true).
  { destruct (take_two t) as [E|[(a & E)|(a & b & E)]]; rewrite E.
    - reflexivity.
    - apply (forall_ascii (fun a => in_pair_range (Py.int16 (String a "")))).
      vm_compute. reflexivity.
    - apply (forall_ascii
               (fun b => in_pair_range (Py.int16 (String a (String b ""))))).
      apply (forall_ascii
               (fun a => forallb
                  (fun b => in_pair_range (Py.int16 (String a (String b ""))))
                  all_ascii)).
      vm_compute. reflexivity. }
  intros E. rewrite E in R. cbn in R.
  apply andb_true_iff in R. lia.
Qed.

Lemma unit_of_pair_range (v : Z) :
  -15 <= v <= 255 ->
  PrimFloat.leb (unit_of (-15)) (unit_of v) = true
  /\ PrimFloat.leb (unit_of v) 1 = true.
Proof.
  intros H. apply andb_true_iff.
  assert (Hin : In v pair_values) by (apply in_range; lia).
  clear H. revert v Hin. apply forallb_forall. vm_compute. reflexivity.
Qed.

(** X9.  Whatever the string, if [hex_to_rgba] returns, alpha is 1.0 and
    each channel lies between -15 / 255.0 and 1.0: no pair of characters
    reads as less than -15 or as more than 255. *)
Theorem hex_to_rgba_channels_bounded (s : string) (r g b a : float) :
  hex_to_rgba s = inr (r, g, b, a) ->
  a = 1%float
  /\ PrimFloat.leb (unit_of (-15)) r = true /\ PrimFloat.leb r 1 = true
  /\ PrimFloat.leb (unit_of (-15)) g = true /\ PrimFloat.leb g 1 = true
  /\ PrimFloat.leb (unit_of (-15)) b = true /\ PrimFloat.leb b 1 = true.
Proof.
  unfold hex_to_rgba, Py.slice.
  change (2 - 0)%nat with 2%nat. change (4 - 2)%nat with 2%nat.
  change (6 - 4)%nat with 2%nat.
  destruct (Py.int16 (Py.take 2 (Py.drop 0 (Py.lstrip "#" s)))) as [e|x] eqn:Ex;
    [discriminate|].
  destruct (Py.int16 (Py.take 2 (Py.drop 2 (Py.lstrip "#" s)))) as [e|y] eqn:Ey;
    [discriminate|].
  destruct (Py.int16 (Py.take 2 (Py.drop 4 (Py.lstrip "#" s)))) as [e|z] eqn:Ez;
    [discriminate|].
  intros H. injection H as <- <- <- <-.
  destruct (unit_of_pair_range x (int16_two_range _ _ Ex)).
  destruct (unit_of_pair_range y (int16_two_range _ _ Ey)).
  destruct (unit_of_pair_range z (int16_two_range _ _ Ez)).
  repeat split; assumption.
Qed.

Lemma hex_to_rgba_channels_bounded_witness :
  PrimFloat.leb (unit_of (-15)) (unit_of (-15)) = true
  /\ PrimFloat.leb (unit_of (-15)) 1 = true.
Proof.
  destruct (hex_to_rgba_channels_bounded "-f0000"
              (unit_of (-15)) (unit_of 0) (unit_of 0) 1%float)
    as (_ & H1 & H2 & _).
  - vm_compute. reflexivity.
  - split; [exact H1|exact H2].
Defined.

(** ** More on the runs: a stop that does not convert, and the canvas *)

Lemma saved_app (e1 e2 : list event) : saved (e1 ++ e2) = saved e1 ++ saved e2.
Proof. apply flat_map_app. Qed.

Lemma saved_bands (bs : list band) :
  saved (map (fun '(shape, fill) => DrawRectangle shape fill) bs) = [].
Proof. induction bs as [|[sh f] bs IH]; cbn; [reflexivity|exact IH]. Qed.

Lemma In_bands_from (y : Z) (hexes : list string) (shape : point * point)
      (fill : rgb8) :
  In (shape, fill) (bands_from y hexes) ->
  exists h, In h hexes /\ fill = hex_bytes h.
Proof.
  revert y. induction hexes as [|h hexes IH]; intros y; cbn [bands_from In];
    [tauto|].
  intros [E|H].
  - injection E as _ <-. exists h. split; [now left|reflexivity].
  - destruct (IH _ H) as (h' & Hin & E). exists h'. split; [now right|exact E].
Qed.

Lemma bands_from_nth_inv (y : Z) (hexes : list string) (k : nat) (b : band) :
  nth_error (bands_from y hexes) k = Some b ->
  exists h, b = (((0, y + 10 * Z.of_nat k), (50, y + 10 * Z.of_nat k + 8)),
                 hex_bytes h).
Proof.
  intros H.
  destruct (nth_error hexes k) as [h|] eqn:E.
  - rewrite (bands_from_nth y hexes k h E) in H. injection H as <-. now exists h.
  - apply nth_error_None in E. rewrite <- (bands_from_length y) in E.
    apply nth_error_None in E. rewrite E in H. discriminate H.
Qed.

Section BadStop.

Context {L : Colour}.

Lemma draw_stop_ok (c : Color) (y : Z) :
  hex_color (hex_l c) = true ->
  draw_stop c y
  = (inr (y + 10),
     [DrawRectangle ((0, y), (50, y + 10 - 2)) (hex_bytes (hex_l c))]).
Proof. exact (draw_turn c y). Qed.

Lemma draw_stop_saved (c : Color) (y : Z) : saved (snd (draw_stop c y)) = [].
Proof.
  unfold draw_stop, lift, draw_rectangle, emit, ret.
  destruct (hex_to_rgba (hex_l c)) as [e|[[[r g] b] a]]; [reflexivity|].
  cbn [bind].
  destruct (Py.int_of_float (Py.mul_float_int r 255)); [reflexivity|].
  destruct (Py.int_of_float (Py.mul_float_int g 255)); [reflexivity|].
  destruct (Py.int_of_float (Py.mul_float_int b 255)); [reflexivity|].
  destruct (Py.int_of_float (Py.mul_float_int a 255)); reflexivity.
Qed.

Lemma draw_loop_saved (stops : list Color) (y : Z) :
  saved (snd (for_each stops draw_stop y)) = [].
Proof.
  revert y. induction stops as [|c stops IH]; intros y; [reflexivity|].
  cbn [for_each]. pose proof (draw_stop_saved c y) as Hc.
  destruct (draw_stop c y) as [[e|y'] evs]; cbn [snd] in Hc; [exact Hc|].
  rewrite bind_value. cbn [snd]. now rewrite saved_app, Hc, IH.
Qed.

Lemma write_image_loop (cs : list (list Color)) :
  write_image cs
  = (image <- Image_new "RGB" (50, (len cs - 1) * STEPS * 10) (255, 255, 255) ;;
     ImageDraw_Draw image ;;
     y <- for_each (List.concat cs) draw_stop 0 ;;
     image_save image "gradient.png" ;;
     image_close image).
Proof. unfold write_image. now rewrite for_each_concat. Qed.

(** X10.  Whatever it is given, [write_image] calls save at most once and
    for no path but ["gradient.png"]; a run that returns has made the call,
    and was given two segments or more. *)
Theorem write_image_save_calls (cs : list (list Color)) :
  (saved (snd (write_image cs)) = []
   \/ saved (snd (write_image cs)) = ["gradient.png"])
  /\ (fst (write_image cs) = inr tt ->
      saved (snd (write_image cs)) = ["gradient.png"]
      /\ (2 <= List.length cs)%nat).
Proof.
  rewrite write_image_loop.
  pose proof (draw_loop_saved (List.concat cs) 0) as Hs.
  unfold Image_new, ImageDraw_Draw, image_save, image_close, emit, raise, ret.
  cbn [fst snd].
  destruct ((50 <? 0) || ((len cs - 1) * STEPS * 10 <? 0)) eqn:E1.
  { cbn. split; [now left|discriminate]. }
  cbn [bind app im_size].
  destruct (for_each (List.concat cs) draw_stop 0) as [[e|y] evs];
    cbn [snd] in Hs; cbn [bind app fst snd saved flat_map].
  { change (flat_map _ evs) with (saved evs). rewrite Hs.
    split; [now left|discriminate]. }
  destruct (no_pixel (50, (len cs - 1) * STEPS * 10)) eqn:E2;
    cbn [bind app fst snd];
    repeat match goal with
      | |- context [saved (?a :: ?b :: evs ++ ?l)] =>
          change (saved (a :: b :: evs ++ l)) with (saved ([a; b] ++ evs ++ l))
      end;
    rewrite !saved_app, Hs; cbn [saved flat_map app].
  { split; [now right|discriminate]. }
  split; [now right|]. intros _. split; [reflexivity|].
  apply orb_false_iff in E1. destruct E1 as [_ E1]. apply Z.ltb_ge in E1.
  unfold no_pixel in E2. cbn [fst snd] in E2.
  apply orb_false_iff in E2. destruct E2 as [_ E2]. apply Z.eqb_neq in E2.
  unfold STEPS, len in *. lia.
Qed.

Lemma draw_loop_bad_stop (pre post : list Color) (c : Color) (e : exn) :
  stops_ok pre = true -> hex_to_rgba (hex_l c) = inl e ->
  for_each (pre ++ c :: post) draw_stop 0
  = (inl e,
     map (fun '(shape, fill) => DrawRectangle shape fill)
       (bands_from 0 (map hex_l pre))).
Proof.
  intros Hok He. rewrite for_each_app.
  rewrite (for_each_emit pre draw_stop
             (fun c y => DrawRectangle ((0, y), (50, y + 10 - 2))
                           (hex_bytes (hex_l c))) 10 0)
    by (intros x y Hx; apply draw_stop_ok, (stops_ok_in _ _ Hok Hx)).
  assert (Hc : forall y, draw_stop c y = (inl e, []))
    by (intros y; unfold draw_stop; rewrite He; reflexivity).
  rewrite (emitted_bands hex_l), bind_value. cbn [for_each].
  rewrite Hc. cbn [bind fst snd]. now rewrite app_nil_r.
Qed.

(** X11.  When a stop has a [hex_l] that [hex_to_rgba] refuses and the
    stops before it have a hex colour each, [write_image] (on at least one
    segment) has made the canvas and drawn the rectangles of the stops
    before it when the exception of [hex_to_rgba] ends it; it draws no
    further rectangle and saves no file. *)
Theorem write_image_bad_stop (cs : list (list Color)) (pre post : list Color)
        (c : Color) (e : exn) :
  cs <> [] ->
  List.concat cs = pre ++ c :: post ->
  stops_ok pre = true ->
  hex_to_rgba (hex_l c) = inl e ->
  write_image cs
  = (inl e,
     ImageNew "RGB" (50, (len cs - 1) * 10 * 10) (255, 255, 255)
       :: ImageDrawDraw
       :: map (fun '(shape, fill) => DrawRectangle shape fill)
            (bands_from 0 (map hex_l pre)))
  /\ saved (snd (write_image cs)) = [].
Proof.
  intros Hne Hc Hok He.
  assert (E : write_image cs
              = (inl e,
                 ImageNew "RGB" (50, (len cs - 1) * 10 * 10) (255, 255, 255)
                   :: ImageDrawDraw
                   :: map (fun '(shape, fill) => DrawRectangle shape fill)
                        (bands_from 0 (map hex_l pre)))).
  { rewrite write_image_loop, Hc, (draw_loop_bad_stop _ _ _ _ Hok He).
    unfold Image_new. cbn [fst snd].
    assert (Hsize : ((50 <? 0) || ((len cs - 1) * STEPS * 10 <? 0)) = false).
    { apply orb_false_iff. split; [reflexivity|]. apply Z.ltb_ge.
      unfold STEPS, len. destruct cs; [contradiction|]. cbn [List.length]. lia. }
    rewrite Hsize. reflexivity. }
  split; [exact E|]. rewrite E. cbn [snd saved flat_map app].
  change (flat_map _ ?l) with (saved l). apply saved_bands.
Qed.

Lemma print_loop_bad_stop (pre post : list Color) (c : Color) (e : exn) :
  stops_ok pre = true -> hex_to_rgba (hex_l c) = inl e ->
  for_each (pre ++ c :: post) print_stop 0
  = (inl e, map (fun c => Print (rgb_line (hex_l c))) pre).
Proof.
  intros Hok He. rewrite for_each_app.
  rewrite (for_each_emit pre print_stop
             (fun c _ => Print (rgb_line (hex_l c))) 1 0).
  - assert (Hc : forall i, print_stop c i = (inl e, []))
      by (intros i; unfold print_stop; rewrite He; reflexivity).
    rewrite emitted_const, bind_value. cbn [for_each].
    rewrite Hc. cbn [bind fst snd]. now rewrite app_nil_r.
  - intros x i Hx. unfold print_stop.
    destruct (hex_to_rgba_bytes _ (stops_ok_in _ _ Hok Hx))
      as (r & g & b & Hb & _ & _ & _ & Hh).
    rewrite Hh, (rgb_line_bytes _ _ _ _ Hb). reflexivity.
Qed.

(** X12.  When a stop of the segments has a [hex_l] that [hex_to_rgba]
    refuses and the stops before it have a hex colour each, the script
    prints the [hex_l] of every stop, then the second-pass lines of the
    stops before that one, and the exception ends it there: no call into
    the imaging library is made. *)
Theorem script_bad_stop (seeds : list Color) (pre post : list Color)
        (c : Color) (e : exn) :
  List.concat (segments seeds) = pre ++ c :: post ->
  stops_ok pre = true ->
  hex_to_rgba (hex_l c) = inl e ->
  script seeds
  = (inl e,
     map (fun c => Print (hex_l c)) (pre ++ c :: post)
       ++ map (fun c => Print (rgb_line (hex_l c))) pre).
Proof.
  intros Hc Hok He. unfold script.
  rewrite colors_segments, bind_ret_l, print_hex_run, bind_value.
  unfold print_rgb. rewrite for_each_concat, Hc.
  change (for_each (pre ++ c :: post) _ 0)
    with (for_each (pre ++ c :: post) print_stop 0).
  rewrite (print_loop_bad_stop _ _ _ _ Hok He). reflexivity.
Qed.

(** X13.  The loop of [colors] never raises: for any seeds it returns one
    segment per seed but one (none for no seed), the segment at [i] being
    [range_to] of the seeds at [i] and [i + 1] with [STEPS], and prints
    nothing. *)
Theorem colors_adjacent_pairs (seeds : list Color) :
  exists cs,
    colors seeds = (inr cs, [])
    /\ List.length cs = (List.length seeds - 1)%nat
    /\ forall i a b,
         nth_error seeds i = Some a -> nth_error seeds (S i) = Some b ->
         nth_error cs i = Some (range_to a b STEPS).
Proof.
  exists (segments seeds). split; [apply colors_segments|].
  split; [apply segments_length|]. intros i a b. apply segments_nth.
Qed.

(** X14.  The fill of every rectangle that [write_image] draws, for stops
    with a hex colour each, is three bytes: each between 0 and 255. *)
Theorem write_image_fills_are_bytes (cs : list (list Color))
        (shape : point * point) (r g b : Z) :
  stops_ok (List.concat cs) = true ->
  In (shape, (r, g, b)) (rectangles (snd (write_image cs))) ->
  0 <= r <= 255 /\ 0 <= g <= 255 /\ 0 <= b <= 255.
Proof.
  intros Hok Hin. rewrite (rectangles_write_image _ Hok) in Hin.
  destruct (In_bands_from _ _ _ _ Hin) as (h & Hh & E).
  apply in_map_iff in Hh. destruct Hh as (c & <- & Hc).
  apply (hex_bytes_range (hex_l c)); [exact (stops_ok_in _ _ Hok Hc)|].
  now symmetry.
Qed.

(** X15.  With ten stops in every segment, each with a hex colour, and at
    least one segment, [write_image] draws ten rectangles per segment on a
    canvas a hundred units high per segment but one: the rectangles of all
    segments but the last end above the lower edge of the canvas, and the
    ten of the last segment begin at the lower edge or below it. *)
Theorem last_segment_below_canvas (cs : list (list Color)) :
  cs <> [] ->
  Forall (fun seg => List.length seg = 10%nat) cs ->
  stops_ok (List.concat cs) = true ->
  let evs := snd (write_image cs) in
  let height := (len cs - 1) * 10 * 10 in
  hd_error evs = Some (ImageNew "RGB" (50, height) (255, 255, 255))
  /\ List.length (rectangles evs) = (10 * List.length cs)%nat
  /\ forall k x0 y0 x1 y1 fill,
       nth_error (rectangles evs) k = Some (((x0, y0), (x1, y1)), fill) ->
       ((k < 10 * (List.length cs - 1))%nat -> y1 < height)
       /\ ((10 * (List.length cs - 1) <= k)%nat -> height <= y0).
Proof.
  intros Hne Hall Hok evs height. subst evs height.
  split; [rewrite write_image_canvas; reflexivity|].
  rewrite (rectangles_write_image _ Hok). split.
  - rewrite bands_from_length, length_map, (concat_uniform_length 10 _ Hall). lia.
  - intros k x0 y0 x1 y1 fill Hk.
    destruct (bands_from_nth_inv _ _ _ _ Hk) as (h & E).
    assert (Ey0 : y0 = 0 + 10 * Z.of_nat k) by congruence.
    assert (Ey1 : y1 = 0 + 10 * Z.of_nat k + 8) by congruence.
    unfold len. destruct cs as [|seg cs]; [contradiction|].
    cbn [List.length]. split; intros; lia.
Qed.

End BadStop.

Lemma write_image_bad_stop_witness :
  write_image (L := Reference.raw) [["#000000"; "#GG0000"; "#ffffff"]]
  = (inl (ValueError "invalid literal for int() with base 16: 'GG'"),
     [ImageNew "RGB" (50, 0) (255, 255, 255); ImageDrawDraw;
      DrawRectangle ((0, 0), (50, 8)) (0, 0, 0)]).
Proof.
  refine (proj1 (write_image_bad_stop (L := Reference.raw)
                   [["#000000"; "#GG0000"; "#ffffff"]]
                   ["#000000"] ["#ffffff"] "#GG0000"
                   (ValueError "invalid literal for int() with base 16: 'GG'")
                   _ _ _ _)).
  - discriminate.
  - reflexivity.
  - vm_compute. reflexivity.
  - vm_compute. reflexivity.
Defined.

Lemma script_bad_stop_witness :
  script (L := Reference.raw) ["#000000"; "oops"]
  = (inl (ValueError "invalid literal for int() with base 16: 'oo'"),
     [Print "#000000"; Print "oops"; Print "(0.0000, 0.0000, 0.0000)"]).
Proof.
  refine (script_bad_stop (L := Reference.raw) ["#000000"; "oops"]
            ["#000000"] [] "oops"
            (ValueError "invalid literal for int() with base 16: 'oo'")
            _ _ _).
  - reflexivity.
  - vm_compute. reflexivity.
  - vm_compute. reflexivity.
Defined.

Lemma write_image_fills_are_bytes_witness :
  0 <= 28 <= 255 /\ 0 <= 28 <= 255 /\ 0 <= 28 <= 255.
Proof.
  refine (write_image_fills_are_bytes (L := Reference.colour)
            [Reference.between Reference.black Reference.white STEPS]
            ((0, 10), (50, 18)) 28 28 28 _ _).
  - vm_compute. reflexivity.
  - vm_compute. right. left. reflexivity.
Defined.

Lemma last_segment_below_canvas_witness :
  List.length
    (rectangles
       (snd (write_image (L := Reference.colour)
               [Reference.between Reference.black Reference.white STEPS;
                Reference.between Reference.white Reference.black STEPS])))
  = 20%nat.
Proof.
  refine (proj1 (proj2 (last_segment_below_canvas (L := Reference.colour)
            [Reference.between Reference.black Reference.white STEPS;
             Reference.between Reference.white Reference.black STEPS]
            _ _ _))).
  - discriminate.
  - repeat constructor.
  - vm_compute. reflexivity.
Defined.

Lemma saved_prints {A} (f : A -> string) (l : list A) :
  saved (map (fun x => Print (f x)) l) = [].
Proof. induction l as [|x l IH]; cbn; [reflexivity|exact IH]. Qed.

Section Completes.

Context {L : Colour}.

(** X16.  With three seeds or more, every stop of the segments having a
    hex colour, the script runs to its end: it returns, it has printed two
    lines per stop, and it has saved once, to ["gradient.png"].  (With two
    seeds the canvas is 0 high and the save raises.) *)
Theorem script_completes (seeds : list Color) :
  (3 <= List.length seeds)%nat ->
  stops_ok (List.concat (segments seeds)) = true ->
  fst (script seeds) = inr tt
  /\ List.length (printed (snd (script seeds)))
     = (2 * List.length (List.concat (segments seeds)))%nat
  /\ saved (snd (script seeds)) = ["gradient.png"].
Proof.
  intros Hn Hok.
  assert (Hne : (2 <= List.length (segments seeds))%nat)
    by (rewrite segments_length; lia).
  rewrite (script_run _ Hok), (write_image_run _ Hne Hok). cbn [fst snd].
  split; [reflexivity|]. split.
  - rewrite !printed_app, !printed_prints. cbn [printed flat_map app].
    change (flat_map _ ?l) with (printed l).
    rewrite printed_app, printed_bands. cbn.
    rewrite app_nil_r, length_app, !length_map. lia.
  - rewrite !saved_app, !saved_prints. cbn [saved flat_map app].
    change (flat_map _ ?l) with (saved l).
    rewrite saved_app, saved_bands. reflexivity.
Qed.

End Completes.

Lemma script_completes_witness :
  fst (script (L := Reference.colour)
         [Reference.black; Reference.lime; Reference.white])
  = inr tt.
Proof.
  refine (proj1 (script_completes (L := Reference.colour)
                   [Reference.black; Reference.lime; Reference.white] _ _)).
  - exact (le_n 3).
  - vm_compute. reflexivity.
Defined.
